(** * LambdaBuilder: the late-binding bridge to the Python C API

    A shallow embedding of [Sources/libpylamsupport/LambdaBuilder.c].

    The file keeps one global function pointer per entry point of the Python
    runtime, fills them from a library handle and forwards every operation
    through one of them.  The runtime itself is not part of the repository:
    it is reached only through addresses, so the embedding takes the machine
    code behind an address as a parameter ([invoke]) and records every
    indirect call in a ghost log. *)

From Stdlib Require Import ZArith List Ascii String Bool Lia.
From Stdlib Require Import Floats.SpecFloat.
Import ListNotations.
Local Open Scope string_scope.
Local Open Scope list_scope.
Local Open Scope Z_scope.

(** ** C values *)

(** Addresses: data pointers, function pointers and library handles. *)
Definition ptr := Z.
Definition NULL : ptr := 0.

(** What a C variable of the bridge can hold.  [int], [long int] and every
    pointer ([PyObject*], [PyMethodDef*], [FILE*]) are integers; a [char*] is
    taken by the text it points to; a local that was declared and never
    written holds [Vundef]. *)
Inductive cval : Type :=
| Vundef
| Vint (n : Z)
| Vstr (s : string)
| Vdouble (d : spec_float).

(** An actual argument of an indirect call: a value, or the address of a
    local of the caller that the callee may fill in ([&value]). *)
Inductive carg : Type :=
| Aval (v : cval)
| Aout.

(** The character written by [\n]. *)
Definition newline : string := String (Ascii.ascii_of_nat 10) EmptyString.

(** ** printf's [%#llx]

    Lower-case hexadecimal of an [unsigned long long]; the alternate form
    puts ["0x"] before a result that is not zero and leaves zero as ["0"]. *)
Definition hex_digits : list ascii :=
  [ "0"; "1"; "2"; "3"; "4"; "5"; "6"; "7";
    "8"; "9"; "a"; "b"; "c"; "d"; "e"; "f" ]%char.

Definition hex_digit (n : Z) : ascii := nth (Z.to_nat n) hex_digits "0"%char.

(** At most [digits] digits of [n], most significant first, before [acc]. *)
Fixpoint hex_of (digits : nat) (n : Z) (acc : string) : string :=
  match digits with
  | O => acc
  | S k =>
      if n =? 0 then acc
      else hex_of k (n / 16) (String (hex_digit (n mod 16)) acc)
  end.

Definition format_llx_alt (u : Z) : string :=
  if u =? 0 then "0" else String.append "0x" (hex_of 16 u "").

(** [(unsigned long long)value] for a pointer. *)
Definition to_ull (value : ptr) : Z := value mod 2 ^ 64.

(** Reading such a text back. *)
Fixpoint index_of (c : ascii) (l : list ascii) (i : Z) : Z :=
  match l with
  | [] => 0
  | d :: l' => if Ascii.eqb c d then i else index_of c l' (i + 1)
  end.

Definition digit_value (c : ascii) : Z := index_of c hex_digits 0.

Fixpoint hex_value (acc : Z) (s : string) : Z :=
  match s with
  | EmptyString => acc
  | String c s' => hex_value (16 * acc + digit_value c) s'
  end.

Definition read_llx_alt (s : string) : Z :=
  match s with
  | String "0" (String "x" t) => hex_value 0 t
  | _ => hex_value 0 s
  end.

(** [x == NULL] and [x == 0] on a scalar. *)
Definition is_zero (v : cval) : bool :=
  match v with
  | Vint n => n =? 0
  | _ => false
  end.

(** ** C strings and C longs, as the runtime takes them *)

Definition byte_of (c : ascii) : Z := Z.of_nat (nat_of_ascii c).

Definition within (lo hi b : Z) : bool := (lo <=? b) && (b <=? hi).

(** Well-formed UTF-8, byte by byte: [continuation] bytes are still owed to
    the character in progress, the next of them within [lo..hi].  No
    overlong form, no surrogate, nothing above U+10FFFF; and no NUL byte,
    which the text of a C string cannot hold. *)
Fixpoint well_formed_utf8 (continuation : nat) (lo hi : Z) (s : string)
  : bool :=
  match s with
  | EmptyString => Nat.eqb continuation 0
  | String c rest =>
      let b := byte_of c in
      match continuation with
      | O =>
          if b =? 0 then false
          else if b <=? 127 then well_formed_utf8 0 128 191 rest
          else if within 194 223 b then well_formed_utf8 1 128 191 rest
          else if b =? 224 then well_formed_utf8 2 160 191 rest
          else if b =? 237 then well_formed_utf8 2 128 159 rest
          else if within 225 239 b then well_formed_utf8 2 128 191 rest
          else if b =? 240 then well_formed_utf8 3 144 191 rest
          else if within 241 243 b then well_formed_utf8 3 128 191 rest
          else if b =? 244 then well_formed_utf8 3 128 143 rest
          else false
      | S k => within lo hi b && well_formed_utf8 k 128 191 rest
      end
  end.

(** The C strings the runtime can turn into a str object and back. *)
Definition utf8_text (s : string) : bool := well_formed_utf8 0 128 191 s.

(** The values of a [long int] (64 bits). *)
Definition long_range (n : Z) : bool := (- 2 ^ 63 <=? n) && (n <? 2 ^ 63).

(** The one-letter formats and the C values they stand for: 'l' a long,
    's' a C string of UTF-8 text, 'd' a double. *)
Definition scalar (fmt : string) (v : cval) : bool :=
  match v with
  | Vint n => String.eqb fmt "l" && long_range n
  | Vstr s => String.eqb fmt "s" && utf8_text s
  | Vdouble _ => String.eqb fmt "d"
  | Vundef => false
  end.

(** ** The function pointer slots (lines 13-35) *)

Inductive Slot : Type :=
| pyarg_parsetuple
| py_buildvalue
| pyunicode_asutf8
| pyunicode_fromstring
| py_createPyCFunction
| py_boolfromlong
| py_runString
| py_errorprint
| py_getitemstring
| py_setitemstring
| py_evalgetbuiltins
| py_getglobals
| py_import_addmodule
| py_import_getmodule
| py_module_getdict
| py_object_getattrstring
| py_object_setattrstring
| py_run_interactiveone
| py_error_clear
| py_compile_string
| py_err_occurred
| py_execute.

Definition slot_index (sl : Slot) : Z :=
  match sl with
  | pyarg_parsetuple => 0
  | py_buildvalue => 1
  | pyunicode_asutf8 => 2
  | pyunicode_fromstring => 3
  | py_createPyCFunction => 4
  | py_boolfromlong => 5
  | py_runString => 6
  | py_errorprint => 7
  | py_getitemstring => 8
  | py_setitemstring => 9
  | py_evalgetbuiltins => 10
  | py_getglobals => 11
  | py_import_addmodule => 12
  | py_import_getmodule => 13
  | py_module_getdict => 14
  | py_object_getattrstring => 15
  | py_object_setattrstring => 16
  | py_run_interactiveone => 17
  | py_error_clear => 18
  | py_compile_string => 19
  | py_err_occurred => 20
  | py_execute => 21
  end.

Definition Slot_eqb (a b : Slot) : bool := slot_index a =? slot_index b.

Definition all_slots : list Slot :=
  [ pyarg_parsetuple; py_buildvalue; pyunicode_asutf8; pyunicode_fromstring;
    py_createPyCFunction; py_boolfromlong; py_runString; py_errorprint;
    py_getitemstring; py_setitemstring; py_evalgetbuiltins; py_getglobals;
    py_import_addmodule; py_import_getmodule; py_module_getdict;
    py_object_getattrstring; py_object_setattrstring; py_run_interactiveone;
    py_error_clear; py_compile_string; py_err_occurred; py_execute ].

(** The table of slots and the assignment to one of them. *)
Definition Table := Slot -> ptr.

Definition upd (t : Table) (sl : Slot) (f : ptr) : Table :=
  fun x => if Slot_eqb x sl then f else t x.

(** The name each slot is looked up by in [initialisePythonLibrary]
    (lines 47-73). *)
Definition symbol (sl : Slot) : string :=
  match sl with
  | pyarg_parsetuple => "PyArg_ParseTuple"
  | py_buildvalue => "Py_BuildValue"
  | pyunicode_asutf8 => "PyUnicode_AsUTF8"
  | pyunicode_fromstring => "PyUnicode_FromString"
  | py_createPyCFunction => "PyCFunction_NewEx"
  | py_boolfromlong => "PyBool_FromLong"
  | py_runString => "PyRun_String"
  | py_errorprint => "PyErr_Print"
  | py_getitemstring => "PyDict_GetItemString"
  | py_setitemstring => "PyDict_SetItemString"
  | py_evalgetbuiltins => "PyEval_GetBuiltins"
  | py_getglobals => "PyEval_GetGlobals"
  | py_import_addmodule => "PyImport_AddModule"
  | py_import_getmodule => "PyImport_GetModule"
  | py_module_getdict => "PyModule_GetDict"
  | py_object_getattrstring => "PyObject_GetAttrString"
  | py_object_setattrstring => "PyObject_SetAttrString"
  | py_run_interactiveone => "PyRun_InteractiveOne"
  | py_error_clear => "PyErr_Clear"
  | py_compile_string => "Py_CompileString"
  | py_err_occurred => "PyErr_Occurred"
  | py_execute => "PyRun_SimpleString"
  end.

(** One indirect call, as the ghost log keeps it: the slot it went through,
    the address found there and the actual arguments. *)
Record Event : Type := mkEvent {
  via : Slot;
  target : ptr;
  actuals : list carg
}.

Section Bridge.

(** The state of the Python runtime, whatever it is. *)
Variable World : Type.

(** What an indirect call gives back: the returned scalar, what was stored
    through each [Aout] argument (in order; [None] when the callee left it
    alone) and the runtime's state afterwards. *)
Record Return : Type := mkReturn {
  ret : cval;
  outs : list (option cval);
  after : World
}.

(** The code found at an address, run on the given actual arguments. *)
Variable invoke : ptr -> list carg -> World -> Return.

(** The dynamic loader. *)
Variable dlsym : ptr -> string -> ptr.

(** *** The process state and the monad of the bridge *)

Record Process : Type := mkProcess {
  _pythonLibraryHandle : ptr;       (* line 12 *)
  slot : Table;                     (* lines 13-35 *)
  runtime : World;
  stdout : list string;             (* what printf has written *)
  calls : list Event                (* ghost: indirect calls so far *)
}.

(** File-scope objects start out zeroed. *)
Definition boot (w : World) : Process :=
  mkProcess NULL (fun _ => NULL) w [] [].

Inductive Outcome (A : Type) : Type :=
| Returned (a : A) (p : Process)    (* the function returned [a] *)
| Crashed (p : Process)             (* a call went through a nil pointer *)
| Exited (status : Z) (p : Process) (* [exit(status)] *).

Arguments Returned {A} a p.
Arguments Crashed {A} p.
Arguments Exited {A} status p.

Definition M (A : Type) : Type := Process -> Outcome A.

Definition pure {A} (a : A) : M A := fun p => Returned a p.

Definition bind {A B} (m : M A) (k : A -> M B) : M B :=
  fun p =>
    match m p with
    | Returned a p' => k a p'
    | Crashed p' => Crashed p'
    | Exited st p' => Exited st p'
    end.

Notation "x <- m ;; k" := (bind m (fun x => k))
  (at level 61, m at next level, right associativity).
Notation "m ;; k" := (bind m (fun _ => k))
  (at level 61, right associativity).

(** The process an outcome leaves behind. *)
Definition final {A} (o : Outcome A) : Process :=
  match o with
  | Returned _ p => p
  | Crashed p => p
  | Exited _ p => p
  end.

(** The indirect calls made between [p] and the end of [o]. *)
Definition issued {A} (p : Process) (o : Outcome A) : list Event :=
  skipn (List.length (calls p)) (calls (final o)).

Definition set_handle (h : ptr) : M unit :=
  fun p => Returned tt
    (mkProcess h (slot p) (runtime p) (stdout p) (calls p)).

(** [sl = f] *)
Definition assign (sl : Slot) (f : ptr) : M unit :=
  fun p => Returned tt
    (mkProcess (_pythonLibraryHandle p) (upd (slot p) sl f)
               (runtime p) (stdout p) (calls p)).

(** [sl = dlsym(_pythonLibraryHandle, name)] *)
Definition assign_dlsym (sl : Slot) (name : string) : M unit :=
  fun p => assign sl (dlsym (_pythonLibraryHandle p) name) p.

Definition printf (text : string) : M unit :=
  fun p => Returned tt
    (mkProcess (_pythonLibraryHandle p) (slot p) (runtime p)
               (stdout p ++ [text]) (calls p)).

Definition exit {A} (status : Z) : M A := fun p => Exited status p.

(** The process after one more indirect call: the runtime has moved on
    and the call is in the log. *)
Definition logged (p : Process) (w : World) (e : Event) : Process :=
  mkProcess (_pythonLibraryHandle p) (slot p) w (stdout p) (calls p ++ [e]).

(** [( *sl)(args)]: the call is logged, then control goes to the address in
    the slot; a nil address ends the process there.  The entry point is
    taken to come back: a call that ends the process inside the runtime
    ([PyErr_Print] on [SystemExit]) is outside the model, and every
    statement below is about calls that return.  What the runtime itself
    prints is part of its own state: [stdout] holds the output of the
    bridge's [printf] only. *)
Definition call (sl : Slot) (args : list carg) : M Return :=
  fun p =>
    let f := slot p sl in
    if f =? NULL then
      Crashed (logged p (runtime p) (mkEvent sl f args))
    else
      let r := invoke f args (runtime p) in
      Returned r (logged p (after r) (mkEvent sl f args)).

(** The content of the [i]-th local whose address was passed, after the
    call: what the callee stored, or still indeterminate. *)
Definition local (r : Return) (i : nat) : cval :=
  match nth_error (outs r) i with
  | Some (Some v) => v
  | _ => Vundef
  end.

(** *** initialisePythonLibrary (lines 37-75) *)

(** The function is declared [int] and has no [return]: its value is
    indeterminate.

    Lines 39-46, under [#ifdef _WIN32], belong to no build of the file:
    [<dlfcn.h>] is included whatever the platform (line 10), and the branch
    casts to the struct tag [HINSTANCE__] and calls a [GetProcAddress] that
    nothing declares.  The function is what the [#else] branch, lines
    47-73, makes it. *)
Definition initialisePythonLibrary (libraryHandle : ptr) : M cval :=
  set_handle libraryHandle ;;
  assign_dlsym pyarg_parsetuple "PyArg_ParseTuple" ;;
  assign_dlsym py_buildvalue "Py_BuildValue" ;;
  assign_dlsym pyunicode_asutf8 "PyUnicode_AsUTF8" ;;
  assign_dlsym pyunicode_fromstring "PyUnicode_FromString" ;;
  assign_dlsym py_boolfromlong "PyBool_FromLong" ;;
  assign_dlsym py_createPyCFunction "PyCFunction_NewEx" ;;

  assign_dlsym py_runString "PyRun_String" ;;
  assign_dlsym py_errorprint "PyErr_Print" ;;
  assign_dlsym py_error_clear "PyErr_Clear" ;;
  assign_dlsym py_getitemstring "PyDict_GetItemString" ;;
  assign_dlsym py_setitemstring "PyDict_SetItemString" ;;
  assign_dlsym py_evalgetbuiltins "PyEval_GetBuiltins" ;;
  assign_dlsym py_getglobals "PyEval_GetGlobals" ;;

  assign_dlsym py_import_addmodule "PyImport_AddModule" ;;
  assign_dlsym py_import_getmodule "PyImport_GetModule" ;;

  assign_dlsym py_module_getdict "PyModule_GetDict" ;;

  assign_dlsym py_object_getattrstring "PyObject_GetAttrString" ;;
  assign_dlsym py_object_setattrstring "PyObject_SetAttrString" ;;

  assign_dlsym py_run_interactiveone "PyRun_InteractiveOne" ;;
  assign_dlsym py_compile_string "Py_CompileString" ;;
  assign_dlsym py_err_occurred "PyErr_Occurred" ;;
  assign_dlsym py_execute "PyRun_SimpleString" ;;
  pure Vundef.

(** *** The argument parsers (lines 77-130) *)

(** Each returns the local [value] and, beside it, what it stored through
    its pointer parameters: [*error], and [*objectB], [*objectC]. *)

Definition parseArgsToString (args : cval) : M (cval * cval) :=
  r <- call pyarg_parsetuple [Aval args; Aval (Vstr "s"); Aout] ;;
  let value := local r 0 in
  let result := ret r in
  pure (value, result).

Definition parseArgsToDouble (args : cval) : M (cval * cval) :=
  r <- call pyarg_parsetuple [Aval args; Aval (Vstr "d"); Aout] ;;
  let value := local r 0 in
  let result := ret r in
  pure (value, result).

Definition parseArgsToLongInt (args : cval) : M (cval * cval) :=
  r <- call pyarg_parsetuple [Aval args; Aval (Vstr "l"); Aout] ;;
  let value := local r 0 in
  let result := ret r in
  pure (value, result).

Definition parseArgsToObject (args : cval) : M (cval * cval) :=
  r <- call pyarg_parsetuple [Aval args; Aval (Vstr "O"); Aout] ;;
  let value := local r 0 in
  let result := ret r in
  pure (value, result).

(** Result: ([valueA], [*objectB], [*error]). *)
Definition parseArgsToObjectPair (args : cval) : M (cval * cval * cval) :=
  r <- call pyarg_parsetuple [Aval args; Aval (Vstr "OO"); Aout; Aout] ;;
  let valueA := local r 0 in
  let valueB := local r 1 in
  let result := ret r in
  pure (valueA, valueB, result).

(** Result: ([valueA], [*objectB], [*objectC], [*error]). *)
Definition parseArgsToObjectTriple (args : cval)
  : M (cval * cval * cval * cval) :=
  r <- call pyarg_parsetuple
         [Aval args; Aval (Vstr "OOO"); Aout; Aout; Aout] ;;
  let valueA := local r 0 in
  let valueB := local r 1 in
  let valueC := local r 2 in
  let result := ret r in
  pure (valueA, valueB, valueC, result).

(** *** The value wrappers (lines 132-155) *)

Definition wrapLongInt (value : Z) : M cval :=
  r <- call py_buildvalue [Aval (Vstr "l"); Aval (Vint value)] ;;
  pure (ret r).

Definition wrapString (value : string) : M cval :=
  r <- call py_buildvalue [Aval (Vstr "s"); Aval (Vstr value)] ;;
  pure (ret r).

Definition wrapDouble (value : spec_float) : M cval :=
  r <- call py_buildvalue [Aval (Vstr "d"); Aval (Vdouble value)] ;;
  pure (ret r).

Definition wrapObject (value : cval) : M cval :=
  r <- call py_buildvalue [Aval (Vstr "O"); Aval value] ;;
  pure (ret r).

Definition wrapBool (value : Z) : M cval :=
  r <- call py_boolfromlong [Aval (Vint value)] ;;
  pure (ret r).

(** *** Shims (lines 188-208) *)

Definition stringFromPythonObject (p : cval) : M cval :=
  r <- call pyunicode_asutf8 [Aval p] ;;
  pure (ret r).

Definition getPyUnicode_FromString (u : string) : M cval :=
  f <- (fun p => Returned (slot p pyunicode_fromstring) p) ;;
  (if f =? NULL then
     printf (String.append "Lambda functions not available on Python 2!" newline) ;;
     exit 1
   else pure tt) ;;
  r <- call pyunicode_fromstring [Aval (Vstr u)] ;;
  pure (ret r).

Definition createPyCFunction (ml data : cval) : M cval :=
  r <- call py_createPyCFunction [Aval ml; Aval data; Aval (Vint NULL)] ;;
  pure (ret r).

(** [printf("variable %s has value %#llx\n", varName,
    (unsigned long long)value)] (lines 210-212). *)
Definition debug_showAddress (varName : string) (value : ptr) : M unit :=
  printf (String.append "variable "
            (String.append varName
               (String.append " has value "
                  (String.append (format_llx_alt (to_ull value)) newline)))).

(** *** Running code and the error state (lines 214-283) *)

Definition printErrors : M unit :=
  call py_errorprint [] ;; pure tt.

Definition clearErrors : M unit :=
  call py_error_clear [] ;; pure tt.

Definition executePythonCode (code : string) (start : Z)
    (globals locals : cval) (showErrors : Z) : M cval :=
  let run :=
    value <- call py_runString
               [Aval (Vstr code); Aval (Vint start); Aval globals; Aval locals] ;;
    (if negb (showErrors =? 0) then printErrors else clearErrors) ;;
    pure (ret value) in
  found <- call py_getitemstring [Aval globals; Aval (Vstr "__builtins__")] ;;
  if is_zero (ret found) then
    builtins <- call py_evalgetbuiltins [] ;;
    status <- call py_setitemstring
                [Aval globals; Aval (Vstr "__builtins__"); Aval (ret builtins)] ;;
    if negb (is_zero (ret status)) then pure (Vint NULL) else run
  else run.

Definition getPythonExecutionGlobals : M cval :=
  r <- call py_getglobals [] ;;
  pure (ret r).

Definition setItemInGlobalDictionary (key : string) (value : cval) : M unit :=
  main_module <- call py_import_addmodule [Aval (Vstr "__main__")] ;;
  global_dict <- call py_module_getdict [Aval (ret main_module)] ;;
  call py_setitemstring [Aval (ret global_dict); Aval (Vstr key); Aval value] ;;
  pure tt.

Definition getItemFromGlobalDictionary (key : string) : M cval :=
  main_module <- call py_import_addmodule [Aval (Vstr "__main__")] ;;
  global_dict <- call py_module_getdict [Aval (ret main_module)] ;;
  r <- call py_getitemstring [Aval (ret global_dict); Aval (Vstr key)] ;;
  pure (ret r).

(** Each of the two operations resolves ["__main__"] and asks for its
    dictionary on its own: this is the log of either, for what its third
    call is. *)
Definition resolution_log (fadd fdict : ptr) (w : World) (third : cval -> Event)
  : list Event :=
  let main_module := invoke fadd [Aval (Vstr "__main__")] w in
  let global_dict := invoke fdict [Aval (ret main_module)] (after main_module) in
  [ mkEvent py_import_addmodule fadd [Aval (Vstr "__main__")];
    mkEvent py_module_getdict fdict [Aval (ret main_module)];
    third (ret global_dict) ].

(** The process after one of the two operations: three calls logged. *)
Definition resolved_then (p : Process) (fadd fdict : ptr)
    (third : cval -> Event) (w : World) : Process :=
  mkProcess (_pythonLibraryHandle p) (slot p) w (stdout p)
            (calls p ++ resolution_log fadd fdict (runtime p) third).

Definition getAttrString (obj : cval) (attr : string) : M cval :=
  r <- call py_object_getattrstring [Aval obj; Aval (Vstr attr)] ;;
  pure (ret r).

(** The C comparison [== 0] yields the [int] 1 or 0. *)
Definition setAttrString (obj : cval) (attr : string) (value : cval) : M Z :=
  r <- call py_object_setattrstring [Aval obj; Aval (Vstr attr); Aval value] ;;
  pure (if is_zero (ret r) then 1 else 0).

Definition getModule (name : string) : M cval :=
  r <- call py_import_addmodule [Aval (Vstr "__main__")] ;;
  pure (ret r).

Definition runInteractiveOne (fp : cval) (filename : string) : M cval :=
  r <- call py_run_interactiveone [Aval fp; Aval (Vstr filename)] ;;
  pure (ret r).

Definition compileString (code name : string) (start : Z) : M cval :=
  r <- call py_compile_string
         [Aval (Vstr code); Aval (Vstr name); Aval (Vint start)] ;;
  pure (ret r).

Definition errorRaised : M cval :=
  r <- call py_err_occurred [] ;;
  pure (ret r).

Definition executeOnMain (code : string) : M unit :=
  call py_execute [Aval (Vstr code)] ;; pure tt.

End Bridge.

Arguments ret {World} r.
Arguments outs {World} r.
Arguments after {World} r.
Arguments mkReturn {World} ret outs after.
Arguments mkProcess {World} _ _ _ _ _.
Arguments _pythonLibraryHandle {World} p.
Arguments slot {World} p sl.
Arguments runtime {World} p.
Arguments stdout {World} p.
Arguments calls {World} p.
Arguments boot {World} w.
Arguments Returned {World A} a p.
Arguments Crashed {World A} p.
Arguments Exited {World A} status p.
Arguments pure {World A} a p.
Arguments bind {World A B} m k p.
Arguments final {World A} o.
Arguments issued {World A} p o.
Arguments printf {World} text p.
Arguments call {World} invoke sl args p.
Arguments logged {World} p w e.
Arguments local {World} r i.
Arguments initialisePythonLibrary {World} dlsym libraryHandle p.
Arguments parseArgsToString {World} invoke args p.
Arguments parseArgsToDouble {World} invoke args p.
Arguments parseArgsToLongInt {World} invoke args p.
Arguments parseArgsToObject {World} invoke args p.
Arguments parseArgsToObjectPair {World} invoke args p.
Arguments parseArgsToObjectTriple {World} invoke args p.
Arguments wrapLongInt {World} invoke value p.
Arguments wrapString {World} invoke value p.
Arguments wrapDouble {World} invoke value p.
Arguments wrapObject {World} invoke value p.
Arguments wrapBool {World} invoke value p.
Arguments stringFromPythonObject {World} invoke p _.
Arguments getPyUnicode_FromString {World} invoke u p.
Arguments createPyCFunction {World} invoke ml data p.
Arguments debug_showAddress {World} varName value p.
Arguments printErrors {World} invoke p.
Arguments clearErrors {World} invoke p.
Arguments executePythonCode {World} invoke code start globals locals showErrors p.
Arguments getPythonExecutionGlobals {World} invoke p.
Arguments setItemInGlobalDictionary {World} invoke key value p.
Arguments getItemFromGlobalDictionary {World} invoke key p.
Arguments resolution_log {World} invoke fadd fdict w third.
Arguments resolved_then {World} invoke p fadd fdict third w.
Arguments getAttrString {World} invoke obj attr p.
Arguments setAttrString {World} invoke obj attr value p.
Arguments getModule {World} invoke name p.
Arguments runInteractiveOne {World} invoke fp filename p.
Arguments compileString {World} invoke code name start p.
Arguments errorRaised {World} invoke p.
Arguments executeOnMain {World} invoke code p.

(** ** Reading the call log *)

(** The error operation [executePythonCode] selects: [printErrors] goes
    through [py_errorprint], [clearErrors] through [py_error_clear]. *)
Definition error_operation (showErrors : Z) : Slot :=
  if showErrors =? 0 then py_error_clear else py_errorprint.

Definition is_error_operation (e : Event) : bool :=
  Slot_eqb (via e) py_errorprint || Slot_eqb (via e) py_error_clear.

(** ** What the bridge expects of the runtime

    The bridge is correct relative to the documented behaviour of the entry
    points it forwards to.  That behaviour is stated here over observations
    of the runtime's state, for the code found at a given address.  The
    states are those of an initialised interpreter that does not run out of
    memory. *)

Record View (World : Type) : Type := mkView {
  (* the references held by an argument bundle (a tuple), in order *)
  tuple_items : World -> cval -> option (list cval);
  (* the native scalar an int, str or float object stands for *)
  value_of : World -> cval -> option cval;
  (* the attribute of an object under a name, NULL when there is none *)
  attribute : World -> cval -> string -> cval;
  (* the binding of a dictionary under a key, NULL when there is none *)
  dict_item : World -> cval -> string -> cval;
  (* the module registered under a name, NULL when there is none *)
  module_named : World -> string -> cval;
  (* the dictionary of a module *)
  dict_of : World -> cval -> cval
}.

Arguments tuple_items {World} v w args.
Arguments value_of {World} v w o.
Arguments attribute {World} v w o name.
Arguments dict_item {World} v w d key.
Arguments module_named {World} v w name.
Arguments dict_of {World} v w m.

(** A status that reports success: an integer other than 0. *)
Definition succeeded (status : cval) : Prop :=
  exists n, status = Vint n /\ n <> 0.

(** The native scalars the wrappers accept, with the format code of each and
    its representation as a C value. *)
Inductive Native : Type :=
| NString (s : string)
| NLong (n : Z)
| NDouble (d : spec_float).

Definition format_code (x : Native) : string :=
  match x with
  | NString _ => "s"
  | NLong _ => "l"
  | NDouble _ => "d"
  end.

Definition native_value (x : Native) : cval :=
  match x with
  | NString s => Vstr s
  | NLong n => Vint n
  | NDouble d => Vdouble d
  end.

(** The inputs a wrapper can be given and the runtime can hold: any
    [long int], any double, and the C strings that are UTF-8 text. *)
Definition representable (x : Native) : bool :=
  scalar (format_code x) (native_value x).

Section Contract.

Variable World : Type.
Variable invoke : ptr -> list carg -> World -> Return World.
Variable V : View World.

(** Whether an object keeps its attributes the plain way: in its own
    dictionary, with no [__setattr__], descriptor or slot in between. *)
Variable plain : World -> cval -> bool.

(** [keeps w w']: [w'] is a later state of the runtime in which the
    objects of [w] are still alive. *)
Variable keeps : World -> World -> Prop.

(** [Py_BuildValue(fmt, v)] at [f], for a one-letter format and a C value
    of its kind: the result is an int, str or float object standing for
    [v]. *)
Definition BuildsValue (f : ptr) : Prop :=
  forall w fmt v,
    scalar fmt v = true ->
    let r := invoke f [Aval (Vstr fmt); Aval v] w in
    value_of V (after r) (ret r) = Some v.

(** [PyArg_ParseTuple(args, fmt, &out)] at [f], for a bundle of one object
    standing for [v] and the one-letter format of [v]'s kind: [v] is stored
    and the status reports success. *)
Definition ParsesValue (f : ptr) : Prop :=
  forall w args o fmt v,
    tuple_items V w args = Some [o] ->
    value_of V w o = Some v ->
    scalar fmt v = true ->
    let r := invoke f [Aval args; Aval (Vstr fmt); Aout] w in
    succeeded (ret r) /\ outs r = [Some v].

(** int, str and float objects never change: what one stands for, it
    stands for as long as it lives. *)
Definition Lasting : Prop :=
  forall w w' o v,
    keeps w w' -> value_of V w o = Some v -> value_of V w' o = Some v.

(** [PyArg_ParseTuple(args, "OO", &a, &b)] at [f]: a bundle of two
    references is stored in order with a success status; on anything else
    the status is 0 and nothing is stored. *)
Definition ParsesPair (f : ptr) : Prop :=
  forall w args,
    let r := invoke f [Aval args; Aval (Vstr "OO"); Aout; Aout] w in
    match tuple_items V w args with
    | Some [a; b] => succeeded (ret r) /\ outs r = [Some a; Some b]
    | _ => ret r = Vint 0 /\ outs r = [None; None]
    end.

(** [PyObject_SetAttrString] at [f], on a plain object: status 0 means the
    attribute now is the value. *)
Definition StoresAttr (f : ptr) : Prop :=
  forall w obj name v,
    plain w obj = true ->
    let r := invoke f [Aval obj; Aval (Vstr name); Aval v] w in
    ret r = Vint 0 -> attribute V (after r) obj name = v.

(** [PyObject_GetAttrString] at [f]. *)
Definition GetsAttr (f : ptr) : Prop :=
  forall w obj name,
    ret (invoke f [Aval obj; Aval (Vstr name)] w) = attribute V w obj name.

(** [PyImport_AddModule] at [f]: the result is the module registered under
    the name afterwards; a module that was there already is handed out
    without a change to the runtime. *)
Definition AddsModule (f : ptr) : Prop :=
  forall w name,
    let r := invoke f [Aval (Vstr name)] w in
    ret r = module_named V (after r) name /\
    (is_zero (module_named V w name) = false -> after r = w).

(** [PyModule_GetDict] at [f]. *)
Definition GetsDict (f : ptr) : Prop :=
  forall w m,
    let r := invoke f [Aval m] w in
    ret r = dict_of V w m /\ after r = w.

(** [PyImport_AddModule] at [f], for a name that is UTF-8 text: the module
    is there afterwards, and it has a dictionary. *)
Definition ProvidesModule (f : ptr) : Prop :=
  forall w name,
    utf8_text name = true ->
    let r := invoke f [Aval (Vstr name)] w in
    is_zero (ret r) = false /\
    is_zero (dict_of V (after r) (ret r)) = false.

(** [PyDict_SetItemString] at [f], on the dictionary of a module, a key
    that is UTF-8 text and a value that is not nil: the status is 0 and
    the key is bound to the value; the modules and their dictionaries stay
    what they were. *)
Definition StoresItem (f : ptr) : Prop :=
  forall w m key v,
    is_zero (dict_of V w m) = false ->
    utf8_text key = true ->
    is_zero v = false ->
    let r := invoke f [Aval (dict_of V w m); Aval (Vstr key); Aval v] w in
    ret r = Vint 0 /\
    dict_item V (after r) (dict_of V w m) key = v /\
    (forall name, module_named V (after r) name = module_named V w name) /\
    (forall m', dict_of V (after r) m' = dict_of V w m').

(** [PyDict_GetItemString] at [f]. *)
Definition GetsItem (f : ptr) : Prop :=
  forall w d key,
    let r := invoke f [Aval d; Aval (Vstr key)] w in
    ret r = dict_item V w d key /\ after r = w.

End Contract.

Arguments BuildsValue {World} invoke V f.
Arguments ParsesValue {World} invoke V f.
Arguments Lasting {World} V keeps.
Arguments ParsesPair {World} invoke V f.
Arguments StoresAttr {World} invoke V plain f.
Arguments GetsAttr {World} invoke V f.
Arguments AddsModule {World} invoke V f.
Arguments GetsDict {World} invoke V f.
Arguments ProvidesModule {World} invoke V f.
Arguments StoresItem {World} invoke V f.
Arguments GetsItem {World} invoke V f.

(** The wrapper of each native scalar and the parser with the matching
    format code. *)
Definition wrap {World} (invoke : ptr -> list carg -> World -> Return World)
    (x : Native) : M World cval :=
  match x with
  | NString s => wrapString invoke s
  | NLong n => wrapLongInt invoke n
  | NDouble d => wrapDouble invoke d
  end.

Definition parse_back {World} (invoke : ptr -> list carg -> World -> Return World)
    (x : Native) (args : cval) : M World (cval * cval) :=
  match x with
  | NString _ => parseArgsToString invoke args
  | NLong _ => parseArgsToLongInt invoke args
  | NDouble _ => parseArgsToDouble invoke args
  end.

(** ** Further expectations of the runtime *)

Section MoreContracts.

Variable World : Type.
Variable invoke : ptr -> list carg -> World -> Return World.
Variable V : View World.

(** Whether the runtime's error indicator is set. *)
Variable pending : World -> bool.

(** [PyArg_ParseTuple(args, "OOO", &a, &b, &c)] at [f]. *)
Definition ParsesTriple (f : ptr) : Prop :=
  forall w args,
    let r := invoke f [Aval args; Aval (Vstr "OOO"); Aout; Aout; Aout] w in
    match tuple_items V w args with
    | Some [a; b; c] =>
        succeeded (ret r) /\ outs r = [Some a; Some b; Some c]
    | _ => ret r = Vint 0 /\ outs r = [None; None; None]
    end.

(** [PyUnicode_FromString] at [f], on UTF-8 text: the result is a str
    object for the text. *)
Definition MakesString (f : ptr) : Prop :=
  forall w u,
    utf8_text u = true ->
    let r := invoke f [Aval (Vstr u)] w in
    value_of V (after r) (ret r) = Some (Vstr u).

(** [PyUnicode_AsUTF8] at [f]: the text of a str object. *)
Definition ReadsString (f : ptr) : Prop :=
  forall w o u,
    value_of V w o = Some (Vstr u) -> ret (invoke f [Aval o] w) = Vstr u.

(** [PyErr_Print] and [PyErr_Clear] at [f]: the error indicator is clear
    afterwards. *)
Definition ClearsError (f : ptr) : Prop :=
  forall w args, pending (after (invoke f args w)) = false.

(** [PyErr_Occurred] at [f]: nil exactly when the indicator is clear; the
    runtime is left as it is. *)
Definition ReportsError (f : ptr) : Prop :=
  forall w,
    let r := invoke f [] w in
    is_zero (ret r) = negb (pending w) /\ after r = w.

End MoreContracts.

Arguments ParsesTriple {World} invoke V f.
Arguments MakesString {World} invoke V f.
Arguments ReadsString {World} invoke V f.
Arguments ClearsError {World} invoke pending f.
Arguments ReportsError {World} invoke pending f.

(** ** The operations of the header, as requests

    Every function of [LambdaBuilder.h] but [initialisePythonLibrary], with
    its arguments; [perform] runs one and drops its result, [perform_all]
    runs a sequence for as long as the process lives. *)

Inductive Operation : Type :=
| DoParseArgsToString (args : cval)
| DoParseArgsToDouble (args : cval)
| DoParseArgsToLongInt (args : cval)
| DoParseArgsToObject (args : cval)
| DoParseArgsToObjectPair (args : cval)
| DoParseArgsToObjectTriple (args : cval)
| DoWrapLongInt (value : Z)
| DoWrapString (value : string)
| DoWrapDouble (value : spec_float)
| DoWrapObject (value : cval)
| DoWrapBool (value : Z)
| DoStringFromPythonObject (o : cval)
| DoGetPyUnicode_FromString (u : string)
| DoCreatePyCFunction (ml data : cval)
| DoDebug_showAddress (varName : string) (value : ptr)
| DoExecutePythonCode (code : string) (start : Z) (globals locals : cval)
                      (showErrors : Z)
| DoGetPythonExecutionGlobals
| DoSetItemInGlobalDictionary (key : string) (value : cval)
| DoGetItemFromGlobalDictionary (key : string)
| DoGetAttrString (obj : cval) (attr : string)
| DoSetAttrString (obj : cval) (attr : string) (value : cval)
| DoGetModule (name : string)
| DoPrintErrors
| DoClearErrors
| DoRunInteractiveOne (fp : cval) (filename : string)
| DoCompileString (code name : string) (start : Z)
| DoErrorRaised
| DoExecuteOnMain (code : string).

Section Operations.

Variable World : Type.
Variable invoke : ptr -> list carg -> World -> Return World.

Definition forget {A : Type} (m : M World A) : M World unit :=
  fun p =>
    match m p with
    | Returned _ q => Returned tt q
    | Crashed q => Crashed q
    | Exited status q => Exited status q
    end.

Definition perform (op : Operation) : M World unit :=
  match op with
  | DoParseArgsToString args => forget (parseArgsToString invoke args)
  | DoParseArgsToDouble args => forget (parseArgsToDouble invoke args)
  | DoParseArgsToLongInt args => forget (parseArgsToLongInt invoke args)
  | DoParseArgsToObject args => forget (parseArgsToObject invoke args)
  | DoParseArgsToObjectPair args => forget (parseArgsToObjectPair invoke args)
  | DoParseArgsToObjectTriple args =>
      forget (parseArgsToObjectTriple invoke args)
  | DoWrapLongInt value => forget (wrapLongInt invoke value)
  | DoWrapString value => forget (wrapString invoke value)
  | DoWrapDouble value => forget (wrapDouble invoke value)
  | DoWrapObject value => forget (wrapObject invoke value)
  | DoWrapBool value => forget (wrapBool invoke value)
  | DoStringFromPythonObject o => forget (stringFromPythonObject invoke o)
  | DoGetPyUnicode_FromString u => forget (getPyUnicode_FromString invoke u)
  | DoCreatePyCFunction ml data => forget (createPyCFunction invoke ml data)
  | DoDebug_showAddress varName value => debug_showAddress varName value
  | DoExecutePythonCode code start globals locals showErrors =>
      forget (executePythonCode invoke code start globals locals showErrors)
  | DoGetPythonExecutionGlobals => forget (getPythonExecutionGlobals invoke)
  | DoSetItemInGlobalDictionary key value =>
      setItemInGlobalDictionary invoke key value
  | DoGetItemFromGlobalDictionary key =>
      forget (getItemFromGlobalDictionary invoke key)
  | DoGetAttrString obj attr => forget (getAttrString invoke obj attr)
  | DoSetAttrString obj attr value =>
      forget (setAttrString invoke obj attr value)
  | DoGetModule name => forget (getModule invoke name)
  | DoPrintErrors => printErrors invoke
  | DoClearErrors => clearErrors invoke
  | DoRunInteractiveOne fp filename =>
      forget (runInteractiveOne invoke fp filename)
  | DoCompileString code name start =>
      forget (compileString invoke code name start)
  | DoErrorRaised => forget (errorRaised invoke)
  | DoExecuteOnMain code => executeOnMain invoke code
  end.

Fixpoint perform_all (ops : list Operation) : M World unit :=
  match ops with
  | [] => fun p => Returned tt p
  | op :: rest =>
      fun p =>
        match perform op p with
        | Returned _ q => perform_all rest q
        | Crashed q => Crashed q
        | Exited status q => Exited status q
        end
  end.

End Operations.

Arguments forget {World A} m p.
Arguments perform {World} invoke op p.
Arguments perform_all {World} invoke ops p.

(** ** A reference runtime

    A small object store that answers the entry points the way the C API
    documents them.  It gives the statements above a concrete instance to
    run on. *)

Module Reference.

Inductive Obj : Type :=
| OInt (n : Z)
| OStr (s : string)
| OFloat (d : spec_float)
| OTuple (items : list cval)
| ODict (entries : list (string * cval))
| OModule (dict : Z)
| OInstance (attrs : list (string * cval))
| OSealed (attrs : list (string * cval)).   (* its class drops every store *)

Record Heap : Type := mkHeap {
  objects : list (Z * Obj);       (* newest first *)
  next : Z;                       (* the next free address *)
  modules : list (string * Z);
  builtins : Z;
  pending : bool;                 (* the error indicator *)
  stderr : list string
}.

Fixpoint assoc {A : Type} (key : string) (l : list (string * A)) : option A :=
  match l with
  | [] => None
  | (k, a) :: rest => if String.eqb key k then Some a else assoc key rest
  end.

Fixpoint deref (a : Z) (l : list (Z * Obj)) : option Obj :=
  match l with
  | [] => None
  | (b, o) :: rest => if a =? b then Some o else deref a rest
  end.

Definition at_ref (w : Heap) (v : cval) : option Obj :=
  match v with
  | Vint a => deref a (objects w)
  | _ => None
  end.

Definition or_null (o : option cval) : cval :=
  match o with
  | Some v => v
  | None => Vint NULL
  end.

Definition put (a : Z) (o : Obj) (w : Heap) : Heap :=
  mkHeap ((a, o) :: objects w) (next w) (modules w) (builtins w)
         (pending w) (stderr w).

Definition raise (w : Heap) : Heap :=
  mkHeap (objects w) (next w) (modules w) (builtins w) true (stderr w).

Definition done (v : cval) (w : Heap) : Return Heap := mkReturn v [] w.

Definition alloc (o : Obj) (w : Heap) : Return Heap :=
  done (Vint (next w))
       (mkHeap ((next w, o) :: objects w) (next w + 1) (modules w)
               (builtins w) (pending w) (stderr w)).

(** Called with arguments of the wrong shape: nothing happens. *)
Definition misuse (args : list carg) (w : Heap) : Return Heap :=
  mkReturn Vundef
    (map (fun _ => None)
         (filter (fun a => match a with Aout => true | _ => false end) args))
    w.

(** *** The observations *)

Definition ref_tuple_items (w : Heap) (args : cval) : option (list cval) :=
  match at_ref w args with
  | Some (OTuple items) => Some items
  | _ => None
  end.

Definition ref_value_of (w : Heap) (o : cval) : option cval :=
  match at_ref w o with
  | Some (OInt n) => Some (Vint n)
  | Some (OStr s) => Some (Vstr s)
  | Some (OFloat d) => Some (Vdouble d)
  | _ => None
  end.

Definition ref_attribute (w : Heap) (obj : cval) (name : string) : cval :=
  match at_ref w obj with
  | Some (OInstance attrs) => or_null (assoc name attrs)
  | _ => Vint NULL
  end.

Definition ref_dict_item (w : Heap) (d : cval) (key : string) : cval :=
  match at_ref w d with
  | Some (ODict entries) => or_null (assoc key entries)
  | _ => Vint NULL
  end.

Definition ref_dict_of (w : Heap) (m : cval) : cval :=
  match at_ref w m with
  | Some (OModule d) =>
      match deref d (objects w) with
      | Some (ODict _) => Vint d
      | _ => Vint NULL
      end
  | _ => Vint NULL
  end.

(** A name stands for a module once it is registered with a module object
    that has its dictionary. *)
Definition ref_module_named (w : Heap) (name : string) : cval :=
  match assoc name (modules w) with
  | Some m =>
      if (m =? 0) || is_zero (ref_dict_of w (Vint m)) then Vint NULL
      else Vint m
  | None => Vint NULL
  end.

Definition ref_plain (w : Heap) (obj : cval) : bool :=
  match at_ref w obj with
  | Some (OInstance _) => true
  | _ => false
  end.

(** Every object of [w] is still there in [w']. *)
Definition ref_keeps (w w' : Heap) : Prop :=
  forall a o, deref a (objects w) = Some o -> deref a (objects w') = Some o.

Definition view : View Heap :=
  mkView Heap ref_tuple_items ref_value_of ref_attribute ref_dict_item
         ref_module_named ref_dict_of.

(** *** The entry points *)

Definition convert (w : Heap) (code : Ascii.ascii) (item : cval) : option cval :=
  if Ascii.eqb code "O"%char then Some item
  else if Ascii.eqb code "l"%char then
    match at_ref w item with Some (OInt n) => Some (Vint n) | _ => None end
  else if Ascii.eqb code "s"%char then
    match at_ref w item with Some (OStr s) => Some (Vstr s) | _ => None end
  else if Ascii.eqb code "d"%char then
    match at_ref w item with Some (OFloat d) => Some (Vdouble d) | _ => None end
  else None.

Fixpoint convert_all (w : Heap) (codes : list Ascii.ascii) (items : list cval)
  : option (list cval) :=
  match codes, items with
  | [], [] => Some []
  | c :: codes', i :: items' =>
      match convert w c i, convert_all w codes' items' with
      | Some v, Some vs => Some (v :: vs)
      | _, _ => None
      end
  | _, _ => None
  end.

Definition PyArg_ParseTuple (args : list carg) (w : Heap) : Return Heap :=
  match args with
  | Aval bundle :: Aval (Vstr fmt) :: slots =>
      let failed := mkReturn (Vint 0) (map (fun _ => None) slots) (raise w) in
      match ref_tuple_items w bundle with
      | Some items =>
          match convert_all w (list_ascii_of_string fmt) items with
          | Some vs => mkReturn (Vint 1) (map Some vs) w
          | None => failed
          end
      | None => failed
      end
  | _ => misuse args w
  end.

Definition Py_BuildValue (args : list carg) (w : Heap) : Return Heap :=
  match args with
  | [Aval (Vstr fmt); Aval v] =>
      if String.eqb fmt "O" then done v w
      else
        match v with
        | Vint n => if String.eqb fmt "l" then alloc (OInt n) w
                    else done (Vint NULL) (raise w)
        | Vstr s => if String.eqb fmt "s" && utf8_text s
                    then alloc (OStr s) w
                    else done (Vint NULL) (raise w)
        | Vdouble d => if String.eqb fmt "d" then alloc (OFloat d) w
                       else done (Vint NULL) (raise w)
        | Vundef => done (Vint NULL) (raise w)
        end
  | _ => misuse args w
  end.

Definition PyBool_FromLong (args : list carg) (w : Heap) : Return Heap :=
  match args with
  | [Aval (Vint n)] => alloc (OInt (if n =? 0 then 0 else 1)) w
  | _ => misuse args w
  end.

Definition PyUnicode_FromString (args : list carg) (w : Heap) : Return Heap :=
  match args with
  | [Aval (Vstr s)] =>
      if utf8_text s then alloc (OStr s) w else done (Vint NULL) (raise w)
  | _ => misuse args w
  end.

Definition PyUnicode_AsUTF8 (args : list carg) (w : Heap) : Return Heap :=
  match args with
  | [Aval o] =>
      match at_ref w o with
      | Some (OStr s) => done (Vstr s) w
      | _ => done (Vint NULL) (raise w)
      end
  | _ => misuse args w
  end.

Definition PyCFunction_NewEx (args : list carg) (w : Heap) : Return Heap :=
  match args with
  | [Aval ml; Aval self; Aval module] =>
      alloc (OInstance [("__self__", self); ("__module__", module)]) w
  | _ => misuse args w
  end.

Definition PyDict_GetItemString (args : list carg) (w : Heap) : Return Heap :=
  match args with
  | [Aval d; Aval (Vstr key)] => done (ref_dict_item w d key) w
  | _ => misuse args w
  end.

Definition PyDict_SetItemString (args : list carg) (w : Heap) : Return Heap :=
  match args with
  | [Aval d; Aval (Vstr key); Aval v] =>
      match d, at_ref w d with
      | Vint a, Some (ODict entries) =>
          if utf8_text key
          then done (Vint 0) (put a (ODict ((key, v) :: entries)) w)
          else done (Vint (-1)) (raise w)
      | _, _ => done (Vint (-1)) (raise w)
      end
  | _ => misuse args w
  end.

Definition PyEval_GetBuiltins (args : list carg) (w : Heap) : Return Heap :=
  done (Vint (builtins w)) w.

Definition PyImport_GetModule (args : list carg) (w : Heap) : Return Heap :=
  match args with
  | [Aval (Vstr name)] => done (ref_module_named w name) w
  | _ => misuse args w
  end.

Definition PyImport_AddModule (args : list carg) (w : Heap) : Return Heap :=
  match args with
  | [Aval (Vstr name)] =>
      if is_zero (ref_module_named w name) then
        let d := 1 + Z.abs (next w) in
        let m := d + 1 in
        done (Vint m)
             (mkHeap ((m, OModule d) :: (d, ODict []) :: objects w)
                     (m + 1) ((name, m) :: modules w) (builtins w)
                     (pending w) (stderr w))
      else done (ref_module_named w name) w
  | _ => misuse args w
  end.

Definition PyModule_GetDict (args : list carg) (w : Heap) : Return Heap :=
  match args with
  | [Aval m] => done (ref_dict_of w m) w
  | _ => misuse args w
  end.

Definition PyEval_GetGlobals (args : list carg) (w : Heap) : Return Heap :=
  done (ref_dict_of w (ref_module_named w "__main__")) w.

Definition PyObject_GetAttrString (args : list carg) (w : Heap) : Return Heap :=
  match args with
  | [Aval obj; Aval (Vstr name)] => done (ref_attribute w obj name) w
  | _ => misuse args w
  end.

Definition PyObject_SetAttrString (args : list carg) (w : Heap) : Return Heap :=
  match args with
  | [Aval obj; Aval (Vstr name); Aval v] =>
      match obj, at_ref w obj with
      | Vint a, Some (OInstance attrs) =>
          done (Vint 0) (put a (OInstance ((name, v) :: attrs)) w)
      | Vint a, Some (OSealed attrs) => done (Vint 0) w
      | _, _ => done (Vint (-1)) (raise w)
      end
  | _ => misuse args w
  end.

(** [Py_file_input] and [Py_eval_input]. *)
Definition Py_file_input : Z := 257.
Definition Py_eval_input : Z := 258.

(** The only programs this runtime runs are single names, looked up in the
    locals, then the globals, then the built-in namespace the globals name.
    As an expression ([Py_eval_input]) a bound name gives its value; as a
    statement ([Py_file_input]) it gives [None]; an unbound name, or any
    other start symbol, raises. *)
Definition PyRun_String (args : list carg) (w : Heap) : Return Heap :=
  match args with
  | [Aval (Vstr code); Aval (Vint start); Aval globals; Aval locals] =>
      let found :=
        if negb (is_zero (ref_dict_item w locals code))
        then ref_dict_item w locals code
        else if negb (is_zero (ref_dict_item w globals code))
        then ref_dict_item w globals code
        else ref_dict_item w (ref_dict_item w globals "__builtins__") code in
      if is_zero found then done (Vint NULL) (raise w)
      else if start =? Py_eval_input then done found w
      else if start =? Py_file_input
      then done (ref_dict_item w (Vint (builtins w)) "None") w
      else done (Vint NULL) (raise w)
  | _ => misuse args w
  end.

Definition PyRun_SimpleString (args : list carg) (w : Heap) : Return Heap :=
  match args with
  | [Aval (Vstr code)] =>
      let globals := ref_dict_of w (ref_module_named w "__main__") in
      if is_zero (ref_dict_item w globals code) then done (Vint (-1)) w
      else done (Vint 0) w
  | _ => misuse args w
  end.

Definition Py_CompileString (args : list carg) (w : Heap) : Return Heap :=
  match args with
  | [Aval (Vstr code); Aval (Vstr filename); Aval start] => alloc (OStr code) w
  | _ => misuse args w
  end.

Definition PyRun_InteractiveOne (args : list carg) (w : Heap) : Return Heap :=
  done (Vint (-1)) (raise w).

Definition PyErr_Print (args : list carg) (w : Heap) : Return Heap :=
  done Vundef
       (mkHeap (objects w) (next w) (modules w) (builtins w) false
               (if pending w then stderr w ++ ["Traceback"] else stderr w)).

Definition PyErr_Clear (args : list carg) (w : Heap) : Return Heap :=
  done Vundef
       (mkHeap (objects w) (next w) (modules w) (builtins w) false (stderr w)).

Definition PyErr_Occurred (args : list carg) (w : Heap) : Return Heap :=
  done (Vint (if pending w then 1 else NULL)) w.

(** *** The library: where each entry point lives *)

Definition address (sl : Slot) : ptr := 4096 + 16 * slot_index sl.

Definition entry_at (f : ptr) : option Slot :=
  find (fun sl => address sl =? f) all_slots.

Definition invoke (f : ptr) (args : list carg) (w : Heap) : Return Heap :=
  match entry_at f with
  | Some pyarg_parsetuple => PyArg_ParseTuple args w
  | Some py_buildvalue => Py_BuildValue args w
  | Some pyunicode_asutf8 => PyUnicode_AsUTF8 args w
  | Some pyunicode_fromstring => PyUnicode_FromString args w
  | Some py_createPyCFunction => PyCFunction_NewEx args w
  | Some py_boolfromlong => PyBool_FromLong args w
  | Some py_runString => PyRun_String args w
  | Some py_errorprint => PyErr_Print args w
  | Some py_getitemstring => PyDict_GetItemString args w
  | Some py_setitemstring => PyDict_SetItemString args w
  | Some py_evalgetbuiltins => PyEval_GetBuiltins args w
  | Some py_getglobals => PyEval_GetGlobals args w
  | Some py_import_addmodule => PyImport_AddModule args w
  | Some py_import_getmodule => PyImport_GetModule args w
  | Some py_module_getdict => PyModule_GetDict args w
  | Some py_object_getattrstring => PyObject_GetAttrString args w
  | Some py_object_setattrstring => PyObject_SetAttrString args w
  | Some py_run_interactiveone => PyRun_InteractiveOne args w
  | Some py_error_clear => PyErr_Clear args w
  | Some py_compile_string => Py_CompileString args w
  | Some py_err_occurred => PyErr_Occurred args w
  | Some py_execute => PyRun_SimpleString args w
  | None => misuse args w
  end.

(** The handle of the loaded library, and the loader: every name of
    [symbol] resolves on that handle, except the one left out. *)
Definition library : ptr := 1.

Definition lookup_symbol (omitted : option string) (h : ptr) (name : string)
  : ptr :=
  let left_out :=
    match omitted with
    | Some gone => String.eqb name gone
    | None => false
    end in
  if negb (h =? library) || left_out then NULL
  else
    match find (fun sl => String.eqb (symbol sl) name) all_slots with
    | Some sl => address sl
    | None => NULL
    end.

Definition dlsym : ptr -> string -> ptr := lookup_symbol None.

(** *** A starting store

    16: a namespace without ["__builtins__"]; 17: the built-in namespace;
    18: a namespace that has ["__builtins__"] and binds [answer];
    19: a plain instance; 20: the int 7; 21, 22: bundles; 23: an instance
    of a class that drops every attribute store. *)
Definition store : Heap :=
  mkHeap [ (16, ODict []);
           (17, ODict [("None", Vint 19)]);
           (18, ODict [("__builtins__", Vint 17); ("answer", Vint 20)]);
           (19, OInstance []);
           (20, OInt 7);
           (21, OTuple [Vint 19; Vint 20]);
           (22, OTuple [Vint 19]);
           (23, OSealed []) ]
         32 [] 17 false [].

(** The process once the library has been bound. *)
Definition ready : Process Heap :=
  Eval vm_compute in
    final (initialisePythonLibrary dlsym library (boot store)).

(** The one byte 255: not UTF-8 text. *)
Definition not_utf8 : string := String (ascii_of_nat 255) EmptyString.

(** A logged call through a slot of [ready]. *)
Definition at_entry (sl : Slot) (args : list carg) : Event :=
  mkEvent sl (address sl) args.

(** The process [p] once the interpreter has packed the reference [o]
    into a bundle of one, at the address [bundle]. *)
Definition packed (p : Process Heap) (bundle : Z) (o : cval) : Process Heap :=
  mkProcess (_pythonLibraryHandle p) (slot p)
            (put bundle (OTuple [o]) (runtime p)) (stdout p) (calls p).

(** The process [p] with one more object in the runtime's store. *)
Definition holding (p : Process Heap) (a : Z) (o : Obj) : Process Heap :=
  mkProcess (_pythonLibraryHandle p) (slot p) (put a o (runtime p))
            (stdout p) (calls p).

End Reference.

(** * Properties *)

Section Properties.

Variable World : Type.
Variable invoke : ptr -> list carg -> World -> Return World.
Variable dlsym : ptr -> string -> ptr.

(** ** The call log *)

Lemma skipn_length_app {A : Type} (l l' : list A) :
  skipn (List.length l) (l ++ l') = l'.
Proof. induction l as [|a l IH]; simpl; auto. Qed.

Lemma issued_extends {A : Type} (p : Process World) (o : Outcome World A) l :
  calls (final o) = calls p ++ l -> issued p o = l.
Proof. unfold issued. intros ->. apply skipn_length_app. Qed.

Lemma call_nil sl args p :
  slot p sl = NULL ->
  call invoke sl args p = Crashed (logged p (runtime p) (mkEvent sl NULL args)).
Proof. unfold call, logged. intros ->. reflexivity. Qed.

Lemma call_resolved sl args p :
  slot p sl <> NULL ->
  call invoke sl args p =
    Returned (invoke (slot p sl) args (runtime p))
             (logged p (after (invoke (slot p sl) args (runtime p)))
                     (mkEvent sl (slot p sl) args)).
Proof.
  unfold call, logged. intros H.
  destruct (slot p sl =? NULL) eqn:E; [|reflexivity].
  apply Z.eqb_eq in E. contradiction.
Qed.

Lemma call_returned sl args p r p' :
  call invoke sl args p = Returned r p' ->
  slot p sl <> NULL /\
  r = invoke (slot p sl) args (runtime p) /\
  p' = logged p (after r) (mkEvent sl (slot p sl) args).
Proof.
  unfold call, logged.
  destruct (slot p sl =? NULL) eqn:E; [discriminate|].
  apply Z.eqb_neq in E. intros H. injection H as <- <-. auto.
Qed.

(** ** initialisePythonLibrary *)

(** The call always returns; the function has no [return] statement, so
    the value is indeterminate. *)
Lemma initialisePythonLibrary_returns libraryHandle (p : Process World) :
  initialisePythonLibrary dlsym libraryHandle p
  = Returned Vundef (final (initialisePythonLibrary dlsym libraryHandle p)).
Proof. vm_compute; reflexivity. Qed.

(** What the slots hold after the call. *)
Lemma initialisePythonLibrary_slot libraryHandle (p : Process World) sl :
  slot (final (initialisePythonLibrary dlsym libraryHandle p)) sl
  = dlsym libraryHandle (symbol sl).
Proof. destruct sl; vm_compute; reflexivity. Qed.

(** C3. Calling [initialisePythonLibrary] a second time with the same
    handle leaves every slot at the address the first call put there. *)
Theorem initialisePythonLibrary_idempotent :
  forall libraryHandle (p : Process World),
  exists p1 p2,
    initialisePythonLibrary dlsym libraryHandle p
      = Returned Vundef p1 /\
    initialisePythonLibrary dlsym libraryHandle p1
      = Returned Vundef p2 /\
    forall sl, slot p2 sl = slot p1 sl.
Proof.
  intros h p.
  eexists. eexists.
  split; [apply initialisePythonLibrary_returns|].
  split; [apply initialisePythonLibrary_returns|].
  intros sl. rewrite !initialisePythonLibrary_slot. reflexivity.
Qed.

(** C4. Every slot holds what [dlsym] found for its own name, and for no
    other: with a handle on which exactly one of the twenty-two names
    fails to resolve, the slot of that name is nil after the call and
    every other slot is resolved. *)
Lemma initialisePythonLibrary_one_missing :
  forall libraryHandle (p : Process World) missing,
    (forall sl, dlsym libraryHandle (symbol sl) = NULL <-> sl = missing) ->
    forall sl,
      slot (final (initialisePythonLibrary dlsym libraryHandle p)) sl = NULL
      <-> sl = missing.
Proof.
  intros h p missing H sl.
  rewrite initialisePythonLibrary_slot. apply H.
Qed.

(** ** getPyUnicode_FromString *)

(** C5. With a nil [pyunicode_fromstring] slot the call writes the
    diagnostic and ends the process with status 1, without any indirect
    call; with a resolved slot it returns what the entry point returns on
    the input string. *)
Theorem getPyUnicode_FromString_fail_fast :
  forall (u : string) (p : Process World),
    getPyUnicode_FromString invoke u p =
    if slot p pyunicode_fromstring =? NULL then
      Exited 1
        (mkProcess (_pythonLibraryHandle p) (slot p) (runtime p)
           (stdout p ++
              [String.append "Lambda functions not available on Python 2!"
                             newline])
           (calls p))
    else
      let f := slot p pyunicode_fromstring in
      let r := invoke f [Aval (Vstr u)] (runtime p) in
      Returned (ret r)
        (mkProcess (_pythonLibraryHandle p) (slot p) (after r) (stdout p)
           (calls p ++ [mkEvent pyunicode_fromstring f [Aval (Vstr u)]])).
Proof.
  intros u p.
  unfold getPyUnicode_FromString, bind, call, logged, printf, exit, pure.
  destruct (slot p pyunicode_fromstring =? NULL) eqn:E; simpl.
  - reflexivity.
  - rewrite E. reflexivity.
Qed.

(** ** getModule *)

(** C10. [getModule] does not look at its argument: for any two names the
    outcome is the same, namely that of resolving ["__main__"] through
    [py_import_addmodule]. *)
Theorem getModule_ignores_name :
  forall (a b : string) (p : Process World),
    getModule invoke a p = getModule invoke b p /\
    getModule invoke a p =
      match call invoke py_import_addmodule [Aval (Vstr "__main__")] p with
      | Returned r p' => Returned (ret r) p'
      | Crashed p' => Crashed p'
      | Exited status p' => Exited status p'
      end.
Proof. intros a b p. split; reflexivity. Qed.

(** ** executePythonCode *)

Ltac run_bridge H :=
  repeat match type of H with
         | context [if ?c then _ else _] =>
             let E := fresh "E" in destruct c eqn:E; simpl in H
         end.

Ltac crack H :=
  match type of H with
  | [] = ?b ++ _ :: _ => destruct b; discriminate H
  | _ :: _ = ?b ++ _ :: _ =>
      let e := fresh "e" in
      destruct b as [|e b]; simpl in H;
      [ injection H as <- <- | injection H as <- H; crack H ]
  end.

(** C1. Whenever a call of [executePythonCode] gets to run the source text
    (the call through [py_runString] is made and the slot is resolved), the
    log of the call goes on with exactly one more entry: the error
    operation selected by [showErrors], [py_errorprint] ([printErrors])
    when the flag is not zero and [py_error_clear] ([clearErrors]) when it
    is; no error operation comes before the run, so the two are never both
    invoked. *)
Theorem executePythonCode_one_error_operation :
  forall code start globals locals showErrors (p : Process World)
         before run rest,
    issued p (executePythonCode invoke code start globals locals showErrors p)
      = before ++ run :: rest ->
    via run = py_runString ->
    target run <> NULL ->
    actuals run
      = [Aval (Vstr code); Aval (Vint start); Aval globals; Aval locals] /\
    filter is_error_operation before = [] /\
    exists e, rest = [e] /\ via e = error_operation showErrors /\
              target e = slot p (via e) /\ actuals e = [].
Proof.
  intros code start globals locals showErrors p before run rest H Hvia Htarget.
  unfold executePythonCode, printErrors, clearErrors, bind, pure, call,
    logged in H.
  simpl in H.
  run_bridge H.
  all: unfold issued in H; simpl in H; rewrite <- ?app_assoc in H;
    rewrite skipn_length_app in H; simpl in H.
  all: crack H.
  all: simpl in *; try discriminate.
  all: try match goal with
           | E : (slot _ py_runString =? NULL) = true |- _ =>
               apply Z.eqb_eq in E; contradiction
           end.
  all: split; [reflexivity|]; split; [reflexivity|].
  all: eexists; split; [reflexivity|]; unfold error_operation.
  all: destruct (showErrors =? 0); simpl in *; try discriminate.
  all: repeat split.
Qed.

(** X9. In any call, whatever its outcome, at most one error operation is
    invoked. *)
Lemma executePythonCode_never_both :
  forall code start globals locals showErrors (p : Process World),
    (List.length
       (filter is_error_operation
          (issued p (executePythonCode invoke code start globals locals
                                       showErrors p))) <= 1)%nat.
Proof.
  intros code start globals locals showErrors p.
  unfold executePythonCode, printErrors, clearErrors, bind, pure, call, logged.
  simpl.
  repeat match goal with
         | |- context [if ?c then _ else _] => destruct c; simpl
         end.
  all: unfold issued; simpl; rewrite <- ?app_assoc, skipn_length_app; simpl.
  all: lia.
Qed.

(** C9. When the lookup of ["__builtins__"] in the globals comes back nil
    and the attempt to store the built-in namespace there comes back with
    a status other than 0, [executePythonCode] returns nil after those
    three calls: nothing goes through [py_runString], [py_errorprint] or
    [py_error_clear]. *)
Theorem executePythonCode_injection_failure :
  forall code start globals locals showErrors (p : Process World)
         found p1 builtins p2 status p3,
    call invoke py_getitemstring
         [Aval globals; Aval (Vstr "__builtins__")] p = Returned found p1 ->
    is_zero (ret found) = true ->
    call invoke py_evalgetbuiltins [] p1 = Returned builtins p2 ->
    call invoke py_setitemstring
         [Aval globals; Aval (Vstr "__builtins__"); Aval (ret builtins)] p2
      = Returned status p3 ->
    is_zero (ret status) = false ->
    let out :=
      executePythonCode invoke code start globals locals showErrors p in
    out = Returned (Vint NULL) p3 /\
    map via (issued p out)
      = [py_getitemstring; py_evalgetbuiltins; py_setitemstring] /\
    forall e, In e (issued p out) ->
      via e <> py_runString /\ via e <> py_errorprint /\
      via e <> py_error_clear.
Proof.
  intros code start globals locals showErrors p found p1 builtins p2
         status p3 Hget Hnil Hbuiltins Hset Hstatus out.
  assert (Hout : out = Returned (Vint NULL) p3).
  { unfold out, executePythonCode, bind.
    rewrite Hget, Hnil, Hbuiltins, Hset, Hstatus. reflexivity. }
  apply call_returned in Hget as (_ & _ & ->).
  apply call_returned in Hbuiltins as (_ & _ & ->).
  apply call_returned in Hset as (_ & _ & E3).
  assert (Hlog : map via (issued p out)
                 = [py_getitemstring; py_evalgetbuiltins; py_setitemstring]).
  { rewrite Hout, E3. unfold issued, logged. simpl.
    rewrite <- !app_assoc, skipn_length_app. reflexivity. }
  split; [exact Hout|]. split; [exact Hlog|].
  intros e He. apply (in_map via) in He. rewrite Hlog in He.
  simpl in He.
  repeat split; intros Heq; rewrite Heq in He;
    repeat (destruct He as [He|He]; [discriminate He|]); exact He.
Qed.

(** ** Wrapping and parsing back *)

Variable V : View World.
Variable plain : World -> cval -> bool.
Variable keeps : World -> World -> Prop.

(** Each wrapper makes one call, through [py_buildvalue], with the format
    code of its kind and the value as it was given. *)
Lemma wrap_runs :
  forall (x : Native) (p : Process World),
    slot p py_buildvalue <> NULL ->
    let actuals := [Aval (Vstr (format_code x)); Aval (native_value x)] in
    let r := invoke (slot p py_buildvalue) actuals (runtime p) in
    wrap invoke x p
    = Returned (ret r)
        (logged p (after r)
           (mkEvent py_buildvalue (slot p py_buildvalue) actuals)).
Proof.
  intros x p H.
  destruct x; unfold wrap, wrapString, wrapLongInt, wrapDouble, bind;
    rewrite call_resolved by assumption; reflexivity.
Qed.

(** Each parser makes one call, through [pyarg_parsetuple], with the
    bundle, the format code of its kind and the address of its local. *)
Lemma parse_back_runs :
  forall (x : Native) (args : cval) (p : Process World),
    slot p pyarg_parsetuple <> NULL ->
    let actuals := [Aval args; Aval (Vstr (format_code x)); Aout] in
    let r := invoke (slot p pyarg_parsetuple) actuals (runtime p) in
    parse_back invoke x args p
    = Returned (local r 0, ret r)
        (logged p (after r)
           (mkEvent pyarg_parsetuple (slot p pyarg_parsetuple) actuals)).
Proof.
  intros x args p H.
  destruct x;
    unfold parse_back, parseArgsToString, parseArgsToLongInt,
      parseArgsToDouble, bind;
    rewrite call_resolved by assumption; reflexivity.
Qed.


(** C6. [parseArgsToObjectPair] asks for the format "OO" with the addresses
    of [valueA] and [valueB] in this order and copies the status of the
    parse call into [*error] as it is.  On a bundle of two references the
    first comes back as the result and the second through [objectB], with
    a success status; on any other bundle the status is 0 and both outputs
    are the indeterminate content of locals that were never written. *)
Theorem parseArgsToObjectPair_in_order :
  forall (args : cval) (p : Process World) fparse,
    slot p pyarg_parsetuple = fparse ->
    fparse <> NULL ->
    ParsesPair invoke V fparse ->
    exists valueA objectB error p',
      parseArgsToObjectPair invoke args p
        = Returned (valueA, objectB, error) p' /\
      error = ret (invoke fparse [Aval args; Aval (Vstr "OO"); Aout; Aout]
                          (runtime p)) /\
      match tuple_items V (runtime p) args with
      | Some [a; b] => valueA = a /\ objectB = b /\ succeeded error
      | _ => error = Vint 0 /\ valueA = Vundef /\ objectB = Vundef
      end.
Proof.
  intros args p fparse Hslot Hres Hpair. subst fparse.
  unfold parseArgsToObjectPair, bind.
  rewrite call_resolved by assumption. unfold pure.
  do 4 eexists. split; [reflexivity|]. split; [reflexivity|].
  specialize (Hpair (runtime p) args). simpl in Hpair.
  unfold local.
  destruct (tuple_items V (runtime p) args) as [[|a [|b [|c items]]]|];
    destruct Hpair as [Hstatus Houts]; rewrite Houts; simpl; auto.
Qed.

(** ** Attributes *)


(** ** The global dictionary *)

Ltac step :=
  rewrite call_resolved by (simpl; assumption); simpl.

Lemma setItemInGlobalDictionary_runs :
  forall (key : string) (value : cval) (p : Process World),
    slot p py_import_addmodule <> NULL ->
    slot p py_module_getdict <> NULL ->
    slot p py_setitemstring <> NULL ->
    let fadd := slot p py_import_addmodule in
    let fdict := slot p py_module_getdict in
    let fset := slot p py_setitemstring in
    let main_module := invoke fadd [Aval (Vstr "__main__")] (runtime p) in
    let global_dict :=
      invoke fdict [Aval (ret main_module)] (after main_module) in
    let stored :=
      invoke fset [Aval (ret global_dict); Aval (Vstr key); Aval value]
             (after global_dict) in
    setItemInGlobalDictionary invoke key value p
    = Returned tt
        (resolved_then invoke p fadd fdict
           (fun d => mkEvent py_setitemstring fset
                       [Aval d; Aval (Vstr key); Aval value])
           (after stored)).
Proof.
  intros. unfold setItemInGlobalDictionary, bind. do 3 step.
  unfold pure, resolved_then, resolution_log, logged. simpl.
  rewrite <- !app_assoc. reflexivity.
Qed.

Lemma getItemFromGlobalDictionary_runs :
  forall (key : string) (p : Process World),
    slot p py_import_addmodule <> NULL ->
    slot p py_module_getdict <> NULL ->
    slot p py_getitemstring <> NULL ->
    let fadd := slot p py_import_addmodule in
    let fdict := slot p py_module_getdict in
    let fget := slot p py_getitemstring in
    let main_module := invoke fadd [Aval (Vstr "__main__")] (runtime p) in
    let global_dict :=
      invoke fdict [Aval (ret main_module)] (after main_module) in
    let item :=
      invoke fget [Aval (ret global_dict); Aval (Vstr key)]
             (after global_dict) in
    getItemFromGlobalDictionary invoke key p
    = Returned (ret item)
        (resolved_then invoke p fadd fdict
           (fun d => mkEvent py_getitemstring fget [Aval d; Aval (Vstr key)])
           (after item)).
Proof.
  intros. unfold getItemFromGlobalDictionary, bind. do 3 step.
  unfold pure, resolved_then, resolution_log, logged. simpl.
  rewrite <- !app_assoc. reflexivity.
Qed.


End Properties.

(** * The reference runtime honours the contracts *)

Module ReferenceFacts.
Import Reference.

Lemma entry_at_address sl : entry_at (address sl) = Some sl.
Proof. destruct sl; reflexivity. Qed.

Ltac enter := unfold invoke; rewrite entry_at_address.

Lemma succeeded_1 : succeeded (Vint 1).
Proof. exists 1. split; [reflexivity | discriminate]. Qed.

Lemma builds_value : BuildsValue invoke view (address py_buildvalue).
Proof.
  intros w fmt v H. enter.
  destruct v as [|n|s|x]; simpl in H; try discriminate H.
  - apply andb_true_iff in H as [Hf _]. apply String.eqb_eq in Hf.
    subst fmt. simpl. unfold ref_value_of. simpl.
    rewrite Z.eqb_refl. reflexivity.
  - apply andb_true_iff in H as [Hf Hu]. apply String.eqb_eq in Hf.
    subst fmt. simpl. rewrite Hu. simpl. unfold ref_value_of. simpl.
    rewrite Z.eqb_refl. reflexivity.
  - apply String.eqb_eq in H. subst fmt. simpl. unfold ref_value_of. simpl.
    rewrite Z.eqb_refl. reflexivity.
Qed.

Lemma parses_value : ParsesValue invoke view (address pyarg_parsetuple).
Proof.
  intros w args o fmt v Hitems Hvalue H. simpl in Hitems, Hvalue.
  enter. unfold PyArg_ParseTuple. rewrite Hitems.
  unfold ref_value_of in Hvalue.
  destruct (at_ref w o) as [ob|] eqn:E; [|discriminate Hvalue].
  destruct ob; try discriminate Hvalue; injection Hvalue as <-;
    simpl in H;
    [ apply andb_true_iff in H as [H _]
    | apply andb_true_iff in H as [H _]
    | ];
    apply String.eqb_eq in H; subst fmt;
    simpl; unfold convert; simpl; rewrite E; simpl;
    split; auto using succeeded_1.
Qed.

Lemma lasting : Lasting view ref_keeps.
Proof.
  intros w w' o v Hkeeps Hvalue. simpl in *.
  unfold ref_value_of, at_ref in *.
  destruct o as [|a| |]; try discriminate Hvalue.
  destruct (deref a (objects w)) as [ob|] eqn:E; [|discriminate Hvalue].
  rewrite (Hkeeps _ _ E). exact Hvalue.
Qed.

(** An object put at a free address keeps every other one. *)
Lemma keeps_put w a o :
  deref a (objects w) = None -> ref_keeps w (put a o w).
Proof.
  intros Hfree b ob H. simpl.
  destruct (b =? a) eqn:E; [|exact H].
  apply Z.eqb_eq in E. subst b. congruence.
Qed.

Lemma parses_pair : ParsesPair invoke view (address pyarg_parsetuple).
Proof.
  intros w args. enter. simpl.
  destruct (ref_tuple_items w args) as [[|a [|b [|c l]]]|]; simpl;
    split; auto using succeeded_1.
Qed.

Lemma stores_attr :
  StoresAttr invoke view ref_plain (address py_object_setattrstring).
Proof.
  intros w obj name v Hplain. enter. simpl.
  unfold ref_plain in Hplain.
  destruct obj as [|a| |]; simpl in *; try discriminate Hplain.
  destruct (deref a (objects w)) as [ob|]; [|discriminate Hplain].
  destruct ob; try discriminate Hplain.
  intros _. unfold ref_attribute. simpl.
  rewrite Z.eqb_refl. simpl. rewrite String.eqb_refl. reflexivity.
Qed.

Lemma gets_attr : GetsAttr invoke view (address py_object_getattrstring).
Proof. intros w obj name. enter. reflexivity. Qed.

(** The module [PyImport_AddModule] makes when there is none. *)
Lemma made_module w name :
  let d := 1 + Z.abs (next w) in
  let m := d + 1 in
  let w' := mkHeap ((m, OModule d) :: (d, ODict []) :: objects w)
                   (m + 1) ((name, m) :: modules w) (builtins w)
                   (pending w) (stderr w) in
  ref_dict_of w' (Vint m) = Vint d /\ ref_module_named w' name = Vint m /\
  is_zero (Vint m) = false /\ is_zero (Vint d) = false.
Proof.
  intros d m w'.
  assert (Hd : (d =? m) = false) by (apply Z.eqb_neq; unfold m; lia).
  assert (Hm0 : (m =? 0) = false) by (apply Z.eqb_neq; unfold m, d; lia).
  assert (Hd0 : (d =? 0) = false) by (apply Z.eqb_neq; unfold d; lia).
  assert (H1 : ref_dict_of w' (Vint m) = Vint d).
  { unfold ref_dict_of, w'. simpl.
    rewrite Z.eqb_refl, Hd, Z.eqb_refl. reflexivity. }
  split; [exact H1|]. split.
  - unfold ref_module_named. unfold w' at 1. simpl.
    rewrite String.eqb_refl, H1, Hm0. simpl. rewrite Hd0. reflexivity.
  - simpl. auto.
Qed.

Lemma adds_module : AddsModule invoke view (address py_import_addmodule).
Proof.
  intros w name. enter. unfold PyImport_AddModule, done.
  cbn [module_named view].
  destruct (is_zero (ref_module_named w name)) eqn:E; cbn [ret after].
  - destruct (made_module w name) as (_ & Hm & _).
    split; [symmetry; exact Hm | discriminate].
  - auto.
Qed.

Lemma provides_module :
  ProvidesModule invoke view (address py_import_addmodule).
Proof.
  intros w name _. enter. unfold PyImport_AddModule, done.
  cbn [dict_of view].
  destruct (is_zero (ref_module_named w name)) eqn:E; cbn [ret after].
  - destruct (made_module w name) as (Hd & _ & Hm0 & Hd0).
    rewrite Hd. auto.
  - split; [exact E|].
    unfold ref_module_named in *.
    destruct (assoc name (modules w)) as [m|]; [|discriminate E].
    destruct ((m =? 0) || is_zero (ref_dict_of w (Vint m))) eqn:F;
      [discriminate E|].
    apply orb_false_iff in F as [_ F]. exact F.
Qed.

Lemma gets_dict : GetsDict invoke view (address py_module_getdict).
Proof. intros w m. enter. simpl. auto. Qed.

Lemma gets_item : GetsItem invoke view (address py_getitemstring).
Proof. intros w d key. enter. simpl. auto. Qed.

Lemma stores_item : StoresItem invoke view (address py_setitemstring).
Proof.
  intros w m key v Hd Hkey _. simpl in *. enter.
  unfold ref_dict_of in Hd |- *.
  destruct (at_ref w m) as [ob|]; [|discriminate Hd].
  destruct ob as [ | | | | |d| | ]; try discriminate Hd.
  destruct (deref d (objects w)) as [od|] eqn:Ed; [|discriminate Hd].
  destruct od as [ | | | |entries| | | ]; try discriminate Hd.
  simpl. rewrite Ed, Hkey. simpl.
  assert (Hframe : forall m',
             match at_ref (put d (ODict ((key, v) :: entries)) w) m' with
             | Some (OModule d') =>
                 match deref d' (objects (put d (ODict ((key, v) :: entries)) w)) with
                 | Some (ODict _) => Vint d'
                 | _ => Vint NULL
                 end
             | _ => Vint NULL
             end
             = ref_dict_of w m').
  { intros m'. unfold ref_dict_of, at_ref. simpl.
    destruct m' as [|b| |]; auto.
    destruct (b =? d) eqn:Eb.
    - apply Z.eqb_eq in Eb. subst b. rewrite Ed. reflexivity.
    - destruct (deref b (objects w)) as [ob|]; auto.
      destruct ob as [ | | | | |d'| | ]; auto.
      destruct (d' =? d) eqn:Ed'; [|reflexivity].
      apply Z.eqb_eq in Ed'. subst d'. rewrite Ed. reflexivity. }
  split; [reflexivity|]. split.
  - unfold ref_dict_item. simpl.
    rewrite Z.eqb_refl. simpl. rewrite String.eqb_refl. reflexivity.
  - split; [|exact Hframe].
    intros name. unfold ref_module_named. simpl.
    destruct (assoc name (modules w)) as [m0|]; [|reflexivity].
    fold (ref_dict_of (put d (ODict ((key, v) :: entries)) w) (Vint m0)).
    change (ref_dict_of (put d (ODict ((key, v) :: entries)) w) (Vint m0))
      with (match at_ref (put d (ODict ((key, v) :: entries)) w) (Vint m0) with
            | Some (OModule d') =>
                match deref d' (objects (put d (ODict ((key, v) :: entries)) w)) with
                | Some (ODict _) => Vint d'
                | _ => Vint NULL
                end
            | _ => Vint NULL
            end).
    rewrite (Hframe (Vint m0)). reflexivity.
Qed.

Lemma ready_initialised :
  initialisePythonLibrary dlsym library (boot store)
  = Returned Vundef ready.
Proof. vm_compute; reflexivity. Qed.

Lemma ready_slot sl : slot ready sl = address sl.
Proof. destruct sl; vm_compute; reflexivity. Qed.

Lemma address_resolved sl : address sl <> NULL.
Proof. destruct sl; discriminate. Qed.

End ReferenceFacts.

(** * The statements at work on the reference runtime *)

Section Witnesses.

Import Reference ReferenceFacts.

(** Running the name [answer] in the namespace at 18, errors shown. *)
Lemma executePythonCode_one_error_operation_witness :
  let before :=
    [at_entry py_getitemstring [Aval (Vint 18); Aval (Vstr "__builtins__")]] in
  let run :=
    at_entry py_runString
      [Aval (Vstr "answer"); Aval (Vint 258); Aval (Vint 18); Aval (Vint 16)] in
  let rest := [at_entry py_errorprint []] in
  issued ready (executePythonCode invoke "answer" 258 (Vint 18) (Vint 16) 1 ready)
    = before ++ run :: rest /\
  filter is_error_operation before = [] /\
  exists e, rest = [e] /\ via e = py_errorprint.
Proof.
  intros before run rest.
  assert (H : issued ready
                (executePythonCode invoke "answer" 258 (Vint 18) (Vint 16) 1 ready)
              = before ++ run :: rest) by (vm_compute; reflexivity).
  split; [exact H|].
  destruct (executePythonCode_one_error_operation Heap invoke
              "answer" 258 (Vint 18) (Vint 16) 1 ready before run rest H
              (eq_refl : via run = py_runString)
              (address_resolved py_runString))
    as (_ & Hbefore & e & Hrest & Hvia & _).
  split; [exact Hbefore|]. exists e. split; [exact Hrest | exact Hvia].
Defined.

(** The globals given are the instance at 19: no binding can be read from
    it or stored in it. *)
Lemma executePythonCode_injection_failure_witness :
  let out := executePythonCode invoke "answer" 258 (Vint 19) (Vint 16) 1 ready in
  out = Returned (Vint NULL) (final out) /\
  map via (issued ready out)
    = [py_getitemstring; py_evalgetbuiltins; py_setitemstring] /\
  forall e, In e (issued ready out) ->
    via e <> py_runString /\ via e <> py_errorprint /\
    via e <> py_error_clear.
Proof.
  eapply (executePythonCode_injection_failure Heap invoke
            "answer" 258 (Vint 19) (Vint 16) 1 ready).
  - vm_compute; reflexivity.
  - vm_compute; reflexivity.
  - vm_compute; reflexivity.
  - vm_compute; reflexivity.
  - vm_compute; reflexivity.
Defined.



(** The bundle at 21 holds the references 19 and 20. *)
Lemma parseArgsToObjectPair_in_order_witness :
  exists error p',
    parseArgsToObjectPair invoke (Vint 21) ready
      = Returned (Vint 19, Vint 20, error) p' /\
    succeeded error.
Proof.
  destruct (parseArgsToObjectPair_in_order Heap invoke view (Vint 21) ready
              (address pyarg_parsetuple) (ready_slot pyarg_parsetuple)
              (address_resolved pyarg_parsetuple) parses_pair)
    as (valueA & objectB & error & p' & Hrun & _ & Hshape).
  change (valueA = Vint 19 /\ objectB = Vint 20 /\ succeeded error) in Hshape.
  destruct Hshape as (-> & -> & Hok).
  exists error, p'. split; [exact Hrun | exact Hok].
Defined.





(** A handle that resolves every name but ["PyArg_ParseTuple"]: one nil
    slot. *)
Example initialisePythonLibrary_dlsym_nil_slot :
  let loader := lookup_symbol (Some "PyArg_ParseTuple") in
  let p1 := final (initialisePythonLibrary loader library (boot store)) in
  filter (fun sl => slot p1 sl =? NULL) all_slots = [pyarg_parsetuple].
Proof. vm_compute; reflexivity. Qed.

End Witnesses.

(** * Further properties of the bridge *)

Section MoreProperties.

Variable World : Type.
Variable invoke : ptr -> list carg -> World -> Return World.
Variable dlsym : ptr -> string -> ptr.

Ltac open_bridge :=
  unfold perform, forget,
    parseArgsToString, parseArgsToDouble, parseArgsToLongInt,
    parseArgsToObject, parseArgsToObjectPair, parseArgsToObjectTriple,
    wrapLongInt, wrapString, wrapDouble, wrapObject, wrapBool,
    stringFromPythonObject, getPyUnicode_FromString, createPyCFunction,
    debug_showAddress, executePythonCode, getPythonExecutionGlobals,
    setItemInGlobalDictionary, getItemFromGlobalDictionary,
    getAttrString, setAttrString, getModule, printErrors, clearErrors,
    runInteractiveOne, compileString, errorRaised, executeOnMain,
    bind, pure, call, logged, printf, exit.

Ltac branches :=
  repeat match goal with
         | |- context [if ?c then _ else _] => destruct c; simpl
         end.

(** ** What no operation changes *)

Lemma perform_keeps (op : Operation) (p : Process World) :
  let q := final (perform invoke op p) in
  slot q = slot p /\
  _pythonLibraryHandle q = _pythonLibraryHandle p /\
  exists more, calls q = calls p ++ more.
Proof.
  destruct op; open_bridge; simpl; branches;
    (split; [reflexivity|]); (split; [reflexivity|]);
    first [ exists []; rewrite app_nil_r; reflexivity
          | eexists; rewrite <- ?app_assoc; reflexivity ].
Qed.

(** X1. However many operations follow the binding of the library, and
    whatever they are, the slots and the handle stay what they were, and
    the log of indirect calls only grows. *)
Theorem perform_all_keeps_bindings :
  forall (ops : list Operation) (p : Process World),
    let q := final (perform_all invoke ops p) in
    slot q = slot p /\
    _pythonLibraryHandle q = _pythonLibraryHandle p /\
    exists more, calls q = calls p ++ more.
Proof.
  induction ops as [|op ops IH]; intros p; simpl.
  - repeat split. exists []. now rewrite app_nil_r.
  - pose proof (perform_keeps op p) as (Hs & Hh & more & Hc).
    destruct (perform invoke op p) as [[] q|q|status q]; simpl in *;
      try (repeat split; eauto; fail).
    destruct (IH q) as (Hs' & Hh' & more' & Hc').
    split; [congruence|]. split; [congruence|].
    exists (more ++ more'). rewrite Hc', Hc, app_assoc. reflexivity.
Qed.

(** X4. On a process whose slots are all nil (the library was never
    bound), every operation that goes through a slot crashes on its first
    indirect call, before the runtime is entered; [getPyUnicode_FromString]
    exits with status 1 instead, and [debug_showAddress] returns. *)
Theorem unbound_process_crashes :
  forall (op : Operation) (p : Process World),
    (forall sl, slot p sl = NULL) ->
    match op with
    | DoGetPyUnicode_FromString _ =>
        exists q, perform invoke op p = Exited 1 q /\
                  calls q = calls p /\ runtime q = runtime p
    | DoDebug_showAddress _ _ =>
        exists q, perform invoke op p = Returned tt q /\
                  calls q = calls p /\ runtime q = runtime p
    | _ =>
        exists e, perform invoke op p = Crashed (logged p (runtime p) e) /\
                  target e = NULL
    end.
Proof.
  intros op p H.
  destruct op; open_bridge; simpl; rewrite ?H; simpl;
    eexists; repeat split.
Qed.

(** ** initialisePythonLibrary *)

(** X5. [initialisePythonLibrary] records the handle and does nothing else
    than assign slots: it makes no indirect call, writes nothing and leaves
    the runtime alone. *)
Theorem initialisePythonLibrary_only_binds :
  forall libraryHandle (p : Process World),
    let q := final (initialisePythonLibrary dlsym libraryHandle p) in
    _pythonLibraryHandle q = libraryHandle /\
    runtime q = runtime p /\ stdout q = stdout p /\ calls q = calls p.
Proof.
  intros h p. vm_compute; repeat split.
Qed.

(** X6. The call binds all twenty-two slots anew: each holds what [dlsym]
    finds on the new handle for its own name, whatever the slots held
    before. *)
Theorem initialisePythonLibrary_rebinds_every_slot :
  forall libraryHandle (p p' : Process World) sl,
    slot (final (initialisePythonLibrary dlsym libraryHandle p)) sl
      = dlsym libraryHandle (symbol sl) /\
    slot (final (initialisePythonLibrary dlsym libraryHandle p)) sl
      = slot (final (initialisePythonLibrary dlsym libraryHandle p')) sl.
Proof.
  intros h p p' sl. rewrite !initialisePythonLibrary_slot. auto.
Qed.


(** ** executePythonCode *)

Ltac run_in H :=
  repeat match type of H with
         | context [if ?c then _ else _] =>
             let E := fresh "E" in destruct c eqn:E; simpl in H
         end.

Lemma error_operation_runs showErrors (p : Process World) :
  (if negb (showErrors =? 0) then printErrors invoke else clearErrors invoke) p
  = match call invoke (error_operation showErrors) [] p with
    | Returned _ q => Returned tt q
    | Crashed q => Crashed q
    | Exited status q => Exited status q
    end.
Proof.
  unfold error_operation, printErrors, clearErrors, bind, pure.
  destruct (showErrors =? 0); reflexivity.
Qed.

(** X10. When the globals already bind ["__builtins__"] (the lookup comes
    back with a reference), [executePythonCode] leaves the namespace alone:
    it makes three calls, the lookup, the run and the selected error
    operation, never [py_evalgetbuiltins] or [py_setitemstring], and returns
    what the run returned. *)
Theorem executePythonCode_keeps_existing_builtins :
  forall code start globals locals showErrors (p : Process World)
         found p1 value p2 e p3,
    call invoke py_getitemstring
         [Aval globals; Aval (Vstr "__builtins__")] p = Returned found p1 ->
    is_zero (ret found) = false ->
    call invoke py_runString
         [Aval (Vstr code); Aval (Vint start); Aval globals; Aval locals] p1
      = Returned value p2 ->
    call invoke (error_operation showErrors) [] p2 = Returned e p3 ->
    let out :=
      executePythonCode invoke code start globals locals showErrors p in
    out = Returned (ret value) p3 /\
    map via (issued p out)
      = [py_getitemstring; py_runString; error_operation showErrors].
Proof.
  intros code start globals locals showErrors p found p1 value p2 e p3
         Hget Hfound Hrun Herr out.
  assert (Hout : out = Returned (ret value) p3).
  { unfold out, executePythonCode, bind.
    rewrite Hget, Hfound, Hrun, error_operation_runs, Herr. reflexivity. }
  split; [exact Hout|]. rewrite Hout.
  apply call_returned in Hget as (_ & _ & ->).
  apply call_returned in Hrun as (_ & _ & ->).
  apply call_returned in Herr as (_ & _ & ->).
  unfold issued, logged. simpl.
  rewrite <- !app_assoc, skipn_length_app. reflexivity.
Qed.

(** X11. When the lookup comes back nil and the store of the built-in
    namespace reports 0, the reference stored under ["__builtins__"] is the
    one [py_evalgetbuiltins] returned, the source then runs against the same
    globals, and the result of the run is returned after the selected error
    operation: five calls in this order. *)
Theorem executePythonCode_injects_builtins :
  forall code start globals locals showErrors (p : Process World)
         found p1 builtins p2 status p3 value p4 e p5,
    call invoke py_getitemstring
         [Aval globals; Aval (Vstr "__builtins__")] p = Returned found p1 ->
    is_zero (ret found) = true ->
    call invoke py_evalgetbuiltins [] p1 = Returned builtins p2 ->
    call invoke py_setitemstring
         [Aval globals; Aval (Vstr "__builtins__"); Aval (ret builtins)] p2
      = Returned status p3 ->
    is_zero (ret status) = true ->
    call invoke py_runString
         [Aval (Vstr code); Aval (Vint start); Aval globals; Aval locals] p3
      = Returned value p4 ->
    call invoke (error_operation showErrors) [] p4 = Returned e p5 ->
    let out :=
      executePythonCode invoke code start globals locals showErrors p in
    out = Returned (ret value) p5 /\
    map via (issued p out)
      = [py_getitemstring; py_evalgetbuiltins; py_setitemstring;
         py_runString; error_operation showErrors].
Proof.
  intros code start globals locals showErrors p found p1 builtins p2
         status p3 value p4 e p5 Hget Hfound Hb Hset Hstatus Hrun Herr out.
  assert (Hout : out = Returned (ret value) p5).
  { unfold out, executePythonCode, bind.
    rewrite Hget, Hfound, Hb, Hset, Hstatus. simpl.
    rewrite Hrun, error_operation_runs, Herr. reflexivity. }
  split; [exact Hout|]. rewrite Hout.
  apply call_returned in Hget as (_ & _ & ->).
  apply call_returned in Hb as (_ & _ & ->).
  apply call_returned in Hset as (_ & _ & ->).
  apply call_returned in Hrun as (_ & _ & ->).
  apply call_returned in Herr as (_ & _ & ->).
  unfold issued, logged. simpl.
  rewrite <- !app_assoc, skipn_length_app. reflexivity.
Qed.

(** X12. The flag [showErrors] has no say in the result: two calls from the
    same process that differ in the flag only and both return, return the
    same reference. *)
Theorem executePythonCode_result_ignores_showErrors :
  forall code start globals locals flag flag' (p : Process World) v q v' q',
    executePythonCode invoke code start globals locals flag p
      = Returned v q ->
    executePythonCode invoke code start globals locals flag' p
      = Returned v' q' ->
    v = v'.
Proof.
  intros code start globals locals flag flag' p v q v' q' H H'.
  unfold executePythonCode, printErrors, clearErrors, bind, pure, call,
    logged in H, H'.
  simpl in H, H'.
  run_in H; try discriminate H; run_in H'; try discriminate H';
    try (exfalso; congruence);
    injection H as <- _; injection H' as <- _; reflexivity.
Qed.

(** X13. Once [executePythonCode] has run the source and returned, no
    error is pending, whether the flag asked for the error to be shown or
    to be dropped and whether the source failed or not: [errorRaised]
    right after returns nil.  The entry points are taken at their
    documented behaviour: printing an error clears it as well. *)
Theorem executePythonCode_leaves_no_error :
  forall (pending : World -> bool)
         code start globals locals showErrors (p : Process World) v p1,
    executePythonCode invoke code start globals locals showErrors p
      = Returned v p1 ->
    In py_runString
       (map via (issued p (executePythonCode invoke code start globals
                                             locals showErrors p))) ->
    ClearsError invoke pending (slot p py_errorprint) ->
    ClearsError invoke pending (slot p py_error_clear) ->
    ReportsError invoke pending (slot p py_err_occurred) ->
    slot p py_err_occurred <> NULL ->
    exists e p2,
      errorRaised invoke p1 = Returned e p2 /\
      is_zero e = true /\ runtime p2 = runtime p1.
Proof.
  intros pending code start globals locals showErrors p v p1 H Hin
         Hprint Hclear Hreport Hres.
  rewrite H in Hin.
  unfold executePythonCode, printErrors, clearErrors, bind, pure, call,
    logged in H.
  simpl in H.
  run_in H; try discriminate H; injection H as <- <-.
  all: unfold issued in Hin; simpl in Hin;
    rewrite <- ?app_assoc, skipn_length_app in Hin; simpl in Hin.
  all: try (repeat (destruct Hin as [Hin|Hin]; [discriminate Hin|]);
            contradiction).
  all: unfold errorRaised, bind; rewrite call_resolved by (simpl; exact Hres);
    simpl; unfold pure;
    match goal with
    | |- context [invoke (slot _ py_err_occurred) [] ?w] =>
        destruct (Hreport w) as [Hzero Hsame]
    end;
    do 2 eexists; split; [reflexivity|]; simpl; split; [|exact Hsame];
    rewrite Hzero; first [rewrite Hprint | rewrite Hclear]; reflexivity.
Qed.


(** ** The argument parsers *)

Lemma local_untouched (r : Return World) (i : nat) :
  Forall (fun o => o = None) (outs r) -> local r i = Vundef.
Proof.
  unfold local. intros H.
  destruct (nth_error (outs r) i) as [[v|]|] eqn:E; try reflexivity.
  apply nth_error_In in E.
  rewrite Forall_forall in H. apply H in E. discriminate E.
Qed.

(** X14. When the parse entry point stores nothing through the addresses
    it is given (as on a bundle of the wrong shape), each of the six
    parsers still returns: what it hands back as the parsed value, and
    through [objectB] and [objectC], is the indeterminate content of its
    own locals, and [*error] is the status of the call.  The value is to be
    read only after the status. *)
Theorem parsers_return_indeterminate_values :
  forall (args : cval) (p : Process World),
    slot p pyarg_parsetuple <> NULL ->
    (forall fmt slots,
        Forall (fun o => o = None)
               (outs (invoke (slot p pyarg_parsetuple)
                             (Aval args :: Aval (Vstr fmt) :: slots)
                             (runtime p)))) ->
    let status fmt slots :=
      ret (invoke (slot p pyarg_parsetuple)
                  (Aval args :: Aval (Vstr fmt) :: slots) (runtime p)) in
    (exists q, parseArgsToString invoke args p
               = Returned (Vundef, status "s" [Aout]) q) /\
    (exists q, parseArgsToDouble invoke args p
               = Returned (Vundef, status "d" [Aout]) q) /\
    (exists q, parseArgsToLongInt invoke args p
               = Returned (Vundef, status "l" [Aout]) q) /\
    (exists q, parseArgsToObject invoke args p
               = Returned (Vundef, status "O" [Aout]) q) /\
    (exists q, parseArgsToObjectPair invoke args p
               = Returned (Vundef, Vundef, status "OO" [Aout; Aout]) q) /\
    (exists q, parseArgsToObjectTriple invoke args p
               = Returned (Vundef, Vundef, Vundef,
                           status "OOO" [Aout; Aout; Aout]) q).
Proof.
  intros args p Hres Hnone status.
  repeat split;
    unfold parseArgsToString, parseArgsToDouble, parseArgsToLongInt,
      parseArgsToObject, parseArgsToObjectPair, parseArgsToObjectTriple,
      bind, pure;
    rewrite call_resolved by exact Hres;
    rewrite !local_untouched by apply Hnone;
    eexists; reflexivity.
Qed.

Variable V : View World.

(** X15. [parseArgsToObjectTriple] asks for the format "OOO" with the
    addresses of [valueA], [valueB] and [valueC] in this order: on a bundle
    of three references the first is the result, the second and third come
    back through [objectB] and [objectC], with the status of the call in
    [*error]; on any other bundle the status is 0 and the three outputs are
    indeterminate. *)
Theorem parseArgsToObjectTriple_in_order :
  forall (args : cval) (p : Process World) fparse,
    slot p pyarg_parsetuple = fparse ->
    fparse <> NULL ->
    ParsesTriple invoke V fparse ->
    exists valueA objectB objectC error p',
      parseArgsToObjectTriple invoke args p
        = Returned (valueA, objectB, objectC, error) p' /\
      error = ret (invoke fparse
                     [Aval args; Aval (Vstr "OOO"); Aout; Aout; Aout]
                     (runtime p)) /\
      match tuple_items V (runtime p) args with
      | Some [a; b; c] =>
          valueA = a /\ objectB = b /\ objectC = c /\ succeeded error
      | _ => error = Vint 0 /\ valueA = Vundef /\ objectB = Vundef /\
             objectC = Vundef
      end.
Proof.
  intros args p fparse Hslot Hres Htriple. subst fparse.
  unfold parseArgsToObjectTriple, bind.
  rewrite call_resolved by assumption. unfold pure.
  do 5 eexists. split; [reflexivity|]. split; [reflexivity|].
  specialize (Htriple (runtime p) args). simpl in Htriple.
  unfold local.
  destruct (tuple_items V (runtime p) args) as [[|a [|b [|c [|d items]]]]|];
    destruct Htriple as [Hstatus Houts]; rewrite Houts; simpl; auto.
Qed.

(** ** Strings *)

(** X16. A C string of well-formed UTF-8 text turned into a str object by
    [getPyUnicode_FromString] and read back at once by
    [stringFromPythonObject] is the same text.  The entry points are taken
    at their documented behaviour. *)
Theorem string_object_round_trip :
  forall (u : string) (p : Process World) fmake fread,
    utf8_text u = true ->
    slot p pyunicode_fromstring = fmake -> fmake <> NULL ->
    slot p pyunicode_asutf8 = fread -> fread <> NULL ->
    MakesString invoke V fmake ->
    ReadsString invoke V fread ->
    exists o p1 p2,
      getPyUnicode_FromString invoke u p = Returned o p1 /\
      stringFromPythonObject invoke o p1 = Returned (Vstr u) p2.
Proof.
  intros u p fmake fread Hu Hm Hmn Hr Hrn Hmake Hread. subst fmake fread.
  apply Z.eqb_neq in Hmn.
  unfold getPyUnicode_FromString, bind, pure. simpl. rewrite Hmn. simpl.
  apply Z.eqb_neq in Hmn.
  rewrite call_resolved by exact Hmn.
  do 3 eexists. split; [reflexivity|].
  unfold stringFromPythonObject, bind, pure.
  rewrite call_resolved by (simpl; exact Hrn). simpl.
  f_equal. apply Hread. apply Hmake. exact Hu.
Qed.

(** ** Reading the global dictionary *)


(** ** debug_showAddress *)

Lemma digit_value_hex_digit d :
  0 <= d < 16 -> digit_value (hex_digit d) = d.
Proof.
  intros H.
  assert (C : d = 0 \/ d = 1 \/ d = 2 \/ d = 3 \/ d = 4 \/ d = 5 \/ d = 6 \/
              d = 7 \/ d = 8 \/ d = 9 \/ d = 10 \/ d = 11 \/ d = 12 \/
              d = 13 \/ d = 14 \/ d = 15) by lia.
  repeat (destruct C as [->|C]; [reflexivity|]). subst d. reflexivity.
Qed.

Lemma hex_value_hex_of (k : nat) :
  forall n acc,
    0 <= n < 16 ^ Z.of_nat k ->
    hex_value 0 (hex_of k n acc) = hex_value n acc.
Proof.
  induction k as [|k IH]; intros n acc H.
  - simpl in H. assert (n = 0) by lia. subst n. reflexivity.
  - cbn [hex_of]. destruct (n =? 0) eqn:E.
    + apply Z.eqb_eq in E. subst n. reflexivity.
    + rewrite Nat2Z.inj_succ, Z.pow_succ_r in H by lia.
      rewrite IH.
      * cbn [hex_value].
        rewrite digit_value_hex_digit by (apply Z.mod_pos_bound; lia).
        f_equal. pose proof (Z.div_mod n 16). lia.
      * split; [apply Z.div_pos; lia|].
        apply Z.div_lt_upper_bound; lia.
Qed.

Lemma read_format_llx_alt u :
  0 <= u < 2 ^ 64 -> read_llx_alt (format_llx_alt u) = u.
Proof.
  intros H. unfold format_llx_alt.
  destruct (u =? 0) eqn:E.
  - apply Z.eqb_eq in E. subst u. reflexivity.
  - change (hex_value 0 (hex_of 16 u "") = u).
    rewrite hex_value_hex_of; [reflexivity|].
    change (16 ^ Z.of_nat 16) with (2 ^ 64). exact H.
Qed.

(** X18. [debug_showAddress] needs no bound library and enters the
    runtime never: on any process it returns after writing one line,
    ["variable "], the name, [" has value "], the address, a newline, and
    the address as written (hexadecimal, with "0x" in front unless it is
    nil) reads back as the address, taken as an unsigned 64-bit number. *)
Theorem debug_showAddress_prints_the_address :
  forall (varName : string) (value : ptr) (p : Process World),
    exists text,
      debug_showAddress varName value p
      = Returned tt
          (mkProcess (_pythonLibraryHandle p) (slot p) (runtime p)
             (stdout p ++
                [String.append "variable "
                   (String.append varName
                      (String.append " has value "
                         (String.append text newline)))])
             (calls p)) /\
      read_llx_alt text = value mod 2 ^ 64.
Proof.
  intros varName value p.
  exists (format_llx_alt (to_ull value)). split; [reflexivity|].
  apply read_format_llx_alt. unfold to_ull. apply Z.mod_pos_bound. lia.
Qed.

End MoreProperties.

(** * The reference runtime honours the further expectations *)

Module MoreReferenceFacts.
Import Reference ReferenceFacts.

Ltac enter := unfold invoke; rewrite entry_at_address.

Lemma parses_triple : ParsesTriple invoke view (address pyarg_parsetuple).
Proof.
  intros w args. enter. simpl.
  destruct (ref_tuple_items w args) as [[|a [|b [|c [|d l]]]]|]; simpl;
    split; auto using succeeded_1.
Qed.

Lemma makes_string : MakesString invoke view (address pyunicode_fromstring).
Proof.
  intros w u Hu. enter. simpl. rewrite Hu. unfold ref_value_of. simpl.
  rewrite Z.eqb_refl. reflexivity.
Qed.

Lemma reads_string : ReadsString invoke view (address pyunicode_asutf8).
Proof.
  intros w o u H. enter. simpl in *. unfold ref_value_of in H.
  destruct (at_ref w o) as [ob|]; [|discriminate H].
  destruct ob; try discriminate H.
  injection H as ->. reflexivity.
Qed.

Lemma print_clears : ClearsError invoke pending (address py_errorprint).
Proof. intros w args. enter. reflexivity. Qed.

Lemma clear_clears : ClearsError invoke pending (address py_error_clear).
Proof. intros w args. enter. reflexivity. Qed.

Lemma occurred_reports : ReportsError invoke pending (address py_err_occurred).
Proof. intros w. enter. simpl. destruct (pending w); auto. Qed.

(** On anything that is not a bundle the parse stores nothing. *)
Lemma parse_of_no_bundle w args fmt slots :
  ref_tuple_items w args = None ->
  Forall (fun o => o = None)
         (outs (invoke (address pyarg_parsetuple)
                       (Aval args :: Aval (Vstr fmt) :: slots) w)).
Proof.
  intros H. enter. simpl. rewrite H. simpl.
  induction slots as [|a slots IH]; simpl; constructor; auto.
Qed.

End MoreReferenceFacts.

(** * The further properties at work on the reference runtime *)

Section MoreWitnesses.

Import Reference ReferenceFacts MoreReferenceFacts.

Lemma unbound_process_crashes_witness :
  let p := boot store in
  exists e,
    perform invoke (DoExecutePythonCode "answer" 258 (Vint 18) (Vint 16) 1) p
      = Crashed (logged p (runtime p) e) /\
    target e = NULL.
Proof.
  apply (unbound_process_crashes Heap invoke
           (DoExecutePythonCode "answer" 258 (Vint 18) (Vint 16) 1)
           (boot store)).
  intros sl. reflexivity.
Defined.

Lemma initialisePythonLibrary_rebinds_every_slot_witness :
  let rebound p :=
    slot (final (initialisePythonLibrary dlsym library p))
         py_runString in
  rebound ready = dlsym library (symbol py_runString) /\
  rebound ready = rebound (boot store).
Proof.
  apply (initialisePythonLibrary_rebinds_every_slot Heap dlsym
           library ready (boot store) py_runString).
Defined.

(** A handle that resolves every name but ["PyRun_String"]. *)
Lemma initialisePythonLibrary_one_missing_witness :
  let loader := lookup_symbol (Some "PyRun_String") in
  let q := final (initialisePythonLibrary loader library (boot store)) in
  (slot q py_runString = NULL <-> py_runString = py_runString) /\
  (slot q py_errorprint = NULL <-> py_errorprint = py_runString).
Proof.
  assert (H : forall sl,
             lookup_symbol (Some "PyRun_String") library (symbol sl) = NULL
             <-> sl = py_runString).
  { intros sl. destruct sl; vm_compute; split; intros H;
      first [discriminate H | reflexivity]. }
  split;
    apply (initialisePythonLibrary_one_missing Heap
             (lookup_symbol (Some "PyRun_String")) library
             (boot store) py_runString H).
Defined.

Lemma executePythonCode_keeps_existing_builtins_witness :
  let out := executePythonCode invoke "answer" 258 (Vint 18) (Vint 16) 1 ready in
  out = Returned (Vint 20) (final out) /\
  map via (issued ready out)
    = [py_getitemstring; py_runString; py_errorprint].
Proof.
  intros out.
  edestruct (executePythonCode_keeps_existing_builtins Heap invoke
               "answer" 258 (Vint 18) (Vint 16) 1 ready) as [Hout Hlog].
  1-4: vm_compute; reflexivity.
  split; [exact Hout | exact Hlog].
Defined.

Lemma executePythonCode_injects_builtins_witness :
  let out := executePythonCode invoke "answer" 258 (Vint 16) (Vint 18) 0 ready in
  out = Returned (Vint 20) (final out) /\
  map via (issued ready out)
    = [py_getitemstring; py_evalgetbuiltins; py_setitemstring;
       py_runString; py_error_clear].
Proof.
  intros out.
  edestruct (executePythonCode_injects_builtins Heap invoke
               "answer" 258 (Vint 16) (Vint 18) 0 ready) as [Hout Hlog].
  1-7: vm_compute; reflexivity.
  split; [exact Hout | exact Hlog].
Defined.

Lemma executePythonCode_result_ignores_showErrors_witness :
  let silent := executePythonCode invoke "answer" 258 (Vint 18) (Vint 16) 0 ready in
  let shown := executePythonCode invoke "answer" 258 (Vint 18) (Vint 16) 1 ready in
  silent = Returned (Vint 20) (final silent) /\
  shown = Returned (Vint 20) (final shown) /\
  Vint 20 = Vint 20.
Proof.
  intros silent shown.
  assert (H : silent = Returned (Vint 20) (final silent))
    by (vm_compute; reflexivity).
  assert (H' : shown = Returned (Vint 20) (final shown))
    by (vm_compute; reflexivity).
  split; [exact H|]. split; [exact H'|].
  exact (executePythonCode_result_ignores_showErrors Heap invoke
           "answer" 258 (Vint 18) (Vint 16) 0 1 ready
           (Vint 20) (final silent) (Vint 20) (final shown) H H').
Defined.

(** The name [missing] is bound nowhere: the run fails, silently. *)
Lemma executePythonCode_leaves_no_error_witness :
  let out := executePythonCode invoke "missing" 258 (Vint 18) (Vint 16) 0 ready in
  out = Returned (Vint NULL) (final out) /\
  exists e p2,
    errorRaised invoke (final out) = Returned e p2 /\
    is_zero e = true /\ runtime p2 = runtime (final out).
Proof.
  split; [vm_compute; reflexivity|].
  eapply (executePythonCode_leaves_no_error Heap invoke pending
            "missing" 258 (Vint 18) (Vint 16) 0 ready).
  - vm_compute; reflexivity.
  - vm_compute; auto.
  - rewrite ready_slot. apply print_clears.
  - rewrite ready_slot. apply clear_clears.
  - rewrite ready_slot. apply occurred_reports.
  - rewrite ready_slot. apply address_resolved.
Defined.

(** The instance at 19 is no bundle. *)
Lemma parsers_return_indeterminate_values_witness :
  (exists st q, parseArgsToLongInt invoke (Vint 19) ready
                = Returned (Vundef, st) q) /\
  (exists st q, parseArgsToObjectPair invoke (Vint 19) ready
                = Returned (Vundef, Vundef, st) q).
Proof.
  destruct (parsers_return_indeterminate_values Heap invoke (Vint 19) ready)
    as (_ & _ & (q1 & H1) & _ & (q2 & H2) & _).
  - rewrite ready_slot. apply address_resolved.
  - intros fmt slots. rewrite ready_slot.
    apply parse_of_no_bundle. reflexivity.
  - split; do 2 eexists; eassumption.
Defined.

Lemma parseArgsToObjectTriple_in_order_witness :
  let p := holding ready 64 (OTuple [Vint 19; Vint 20; Vint 16]) in
  exists error p',
    parseArgsToObjectTriple invoke (Vint 64) p
      = Returned (Vint 19, Vint 20, Vint 16, error) p' /\
    succeeded error.
Proof.
  intros p.
  destruct (parseArgsToObjectTriple_in_order Heap invoke view (Vint 64) p
              (address pyarg_parsetuple) (ready_slot pyarg_parsetuple)
              (address_resolved pyarg_parsetuple) parses_triple)
    as (valueA & objectB & objectC & error & p' & Hrun & _ & Hshape).
  change (valueA = Vint 19 /\ objectB = Vint 20 /\ objectC = Vint 16 /\
          succeeded error) in Hshape.
  destruct Hshape as (-> & -> & -> & Hok).
  exists error, p'. split; [exact Hrun | exact Hok].
Defined.

Lemma string_object_round_trip_witness :
  exists o p1 p2,
    getPyUnicode_FromString invoke "hello" ready = Returned o p1 /\
    stringFromPythonObject invoke o p1 = Returned (Vstr "hello") p2.
Proof.
  apply (string_object_round_trip Heap invoke view "hello" ready
           (address pyunicode_fromstring) (address pyunicode_asutf8)
           eq_refl
           (ready_slot _) (address_resolved _)
           (ready_slot _) (address_resolved _)
           makes_string reads_string).
Defined.


End MoreWitnesses.
